(** * LLM usage tracker UI: session gateway, access gate, query planner
      and analytics normalizer

    A shallow embedding of the client-side core of the dashboard:

    - [Js]: the fragment of JavaScript values and operators the pages use
      (property reads, [||], truthiness, object literals, [Array.map]);
    - [Gateway]: the two axios interceptors of [services/api.ts];
    - [AccessGate]: the [ProtectedRoute] component;
    - [DateFns]: the [Date] object and the date-fns helpers the pages call;
    - [Planner]: [calculateDateRange] and the parameter sets built by
      [loadAnalytics] and [loadEvents];
    - [Normalizer]: the two response transforms (Dashboard and Analytics);
    - [Dashboard]: the page state, [loadAnalytics] as a state transition,
      the render switch and the category shares read in exact arithmetic;
    - [Binary64], [Charts]: the Number type of the engine and the category
      shares as the page computes them.

    The numbers of a payload only pass through the normalizer; there they are
    exact rationals ([Qc]), as JSON carries finite decimals. Where the page
    does arithmetic of its own, in the category shares, numbers are IEEE 754
    binary64 ([Binary64]). *)

From Stdlib Require Import ZArith QArith Qcanon Lia.
From Stdlib Require SpecFloat.
From stdpp Require Import base strings gmap list pretty.

Local Open Scope Z_scope.
Set Warnings "-register-all".

(* ================================================================== *)
(** * JavaScript values *)

Module Js.

(** A JSON value as [JSON.parse] delivers it, plus [undefined], which a
    read of a missing property produces. An object keeps its entries in
    insertion order, as [Object.entries] enumerates them. *)
Inductive value : Type :=
| VUndefined
| VNull
| VBool (b : bool)
| VNum (n : Qc)
| VStr (s : string)
| VArr (items : list value)
| VObj (entries : list (string * value)).

(** What a [throw] carries: an axios error has a [message] and, when the
    server answered, a [response] with its status and body. A [TypeError]
    raised by the runtime has only a message. *)
Record response := Response { status : Z; data : value }.
Record error := Error { err_response : option response; err_message : string }.

Inductive result (A : Type) : Type :=
| Ok (a : A)
| Throw (e : error).
Arguments Ok {A} a.
Arguments Throw {A} e.

Definition bind {A B} (r : result A) (k : A -> result B) : result B :=
  match r with
  | Ok a => k a
  | Throw e => Throw e
  end.

Definition TypeError (msg : string) : error := Error None msg.

Definition num (z : Z) : value := VNum (Qc_of_Z z).

(** ToBoolean. *)
Definition truthy (v : value) : bool :=
  match v with
  | VUndefined | VNull => false
  | VBool b => b
  | VNum n => negb (bool_decide (n = Qc_of_Z 0))
  | VStr s => negb (bool_decide (s = ""))
  | VArr _ | VObj _ => true
  end.

(** [a || b] *)
Definition or (a b : value) : value := if truthy a then a else b.

Fixpoint assoc (k : string) (entries : list (string * value)) : value :=
  match entries with
  | [] => VUndefined
  | (k', v) :: rest => if bool_decide (k = k') then v else assoc k rest
  end.

(** [v.k]: a read on [undefined] or [null] throws; a primitive or an array
    has none of the data properties the pages read. *)
Definition get (v : value) (k : string) : result value :=
  match v with
  | VUndefined => Throw (TypeError "Cannot read properties of undefined")
  | VNull => Throw (TypeError "Cannot read properties of null")
  | VObj entries => Ok (assoc k entries)
  | _ => Ok VUndefined
  end.

(** [v?.k] *)
Definition get_opt (v : value) (k : string) : value :=
  match v with
  | VObj entries => assoc k entries
  | _ => VUndefined
  end.

(** [o.k = v] on an object: an existing key keeps its place. *)
Fixpoint set_entry (k : string) (v : value) (entries : list (string * value))
  : list (string * value) :=
  match entries with
  | [] => [(k, v)]
  | (k', v') :: rest =>
      if bool_decide (k = k') then (k, v) :: rest
      else (k', v') :: set_entry k v rest
  end.

(** [{...a, ...b}] on entry lists. *)
Definition spread (a b : list (string * value)) : list (string * value) :=
  fold_left (fun acc kv => set_entry (fst kv) (snd kv) acc) b a.

Fixpoint mapM {A B} (f : A -> result B) (l : list A) : result (list B) :=
  match l with
  | [] => Ok []
  | x :: rest =>
      bind (f x) (fun y => bind (mapM f rest) (fun ys => Ok (y :: ys)))
  end.

(** [v.map(f)]: only an array has the method. *)
Definition array_map (v : value) (f : value -> result value) : result value :=
  match v with
  | VArr items => bind (mapM f items) (fun ys => Ok (VArr ys))
  | VUndefined => Throw (TypeError "Cannot read properties of undefined")
  | VNull => Throw (TypeError "Cannot read properties of null")
  | _ => Throw (TypeError "map is not a function")
  end.

(** A string or [null], as [localStorage.getItem] and optional string
    fields deliver it. *)
Definition truthy_str (s : option string) : bool :=
  match s with
  | Some s => negb (bool_decide (s = ""))
  | None => false
  end.

End Js.

#[global] Instance result_bind : MBind Js.result := fun _ _ k r => Js.bind r k.
#[global] Instance result_ret : MRet Js.result := fun _ a => Js.Ok a.

(* ================================================================== *)
(** * Request gateway: [services/api.ts] *)

Module Gateway.
Import Js.

(** The browser state the interceptors touch. *)
Record browser := Browser {
  localStorage : gmap string string;
  location_href : string
}.

(** The part of an axios request config the interceptor can change, and
    what it carries along. *)
Record config := Config {
  url : string;
  params : value;
  headers : gmap string string
}.

(** How a promise settles. *)
Inductive settled (A : Type) : Type :=
| Resolved (a : A)
| Rejected (e : error).
Arguments Resolved {A} a.
Arguments Rejected {A} e.

(** [axios.create({ baseURL, headers: { 'Content-Type': 'application/json' } })]:
    the config of a call made through [api], as the interceptors receive it. *)
Definition apiConfig (url : string) (params : value) : config :=
  Config url params {["Content-Type" := "application/json"]}.

(** [api.interceptors.request.use((config) => ...)] *)
Definition request_fulfilled (b : browser) (c : config) : config :=
  let token := localStorage b !! "token" in
  if truthy_str token then
    match token with
    | Some t =>
        Config (url c) (params c) (<["Authorization" := "Bearer " +:+ t]> (headers c))
    | None => c
    end
  else c.

(** [api.interceptors.request.use(..., (error) => Promise.reject(error))] *)
Definition request_rejected (e : error) : settled config := Rejected e.

(** [api.interceptors.response.use((response) => response, ...)] *)
Definition response_fulfilled (b : browser) (r : response)
  : browser * settled response :=
  (b, Resolved r).

(** [error.response?.status === 401] *)
Definition is_401 (e : error) : bool :=
  match err_response e with
  | Some r => bool_decide (status r = 401)
  | None => false
  end.

(** [api.interceptors.response.use(..., (error) => ...)] *)
Definition response_rejected (b : browser) (e : error)
  : browser * settled response :=
  if is_401 e then
    (Browser (delete "user" (delete "token" (localStorage b))) "/login",
     Rejected e)
  else (b, Rejected e).

(** axios settles a backend answer with its default [validateStatus]
    (2xx resolves, anything else rejects with the response attached), then
    runs the response interceptors. *)
Definition validateStatus (s : Z) : bool :=
  bool_decide (200 <= s) && bool_decide (s < 300).

Definition receive (b : browser) (r : response) : browser * settled response :=
  if validateStatus (status r) then response_fulfilled b r
  else response_rejected b (Error (Some r) "Request failed").

End Gateway.

(* ================================================================== *)
(** * Access gate: [components/ProtectedRoute.tsx] *)

Module AccessGate.
Import Js.

(** Modelled from the spec: [contexts/AuthContext] is not among the sources;
    these are the fields of [useAuth()] the components read. The role is the
    string the backend sent, the tenant a string or [null]. *)
Record user := User {
  role : string;
  customerId : option string
}.

Record auth := Auth {
  isAuthenticated : bool;
  isLoading : bool;
  current : option user
}.

(** What the component renders. *)
Inductive element (A : Type) : Type :=
| Spinner
| Navigate (to : string) (from : option string) (replace : bool)
| Children (c : A).
Arguments Spinner {A}.
Arguments Navigate {A} to from replace.
Arguments Children {A} c.

(** [user?.role !== r] *)
Definition role_is_not (u : option user) (r : string) : bool :=
  match u with
  | Some u => negb (bool_decide (role u = r))
  | None => true
  end.

Definition ProtectedRoute {A} (a : auth) (location : string)
    (requireAdmin requireSuperAdmin : bool) (children : A) : element A :=
  if isLoading a then Spinner
  else if negb (isAuthenticated a) then Navigate "/login" (Some location) true
  else if requireAdmin && role_is_not (current a) "ADMIN"
                       && role_is_not (current a) "SUPERADMIN"
    then Navigate "/" None true
  else if requireSuperAdmin && role_is_not (current a) "SUPERADMIN"
    then Navigate "/" None true
  else Children children.

End AccessGate.

(* ================================================================== *)
(** * The [Date] object and date-fns *)

Module DateFns.

(** The host: its clock (a time value, milliseconds since the epoch in UTC)
    and its time zone, a fixed offset east of UTC in minutes. Daylight-saving
    transitions are not modelled. *)
Record host := Host { now : Z; tzOffset : Z }.

Definition msPerDay : Z := 86400000.
Definition msPerMinute : Z := 60000.

Definition LocalTime (h : host) (t : Z) : Z := t + tzOffset h * msPerMinute.
Definition UTC (h : host) (t : Z) : Z := t - tzOffset h * msPerMinute.

Definition Day (t : Z) : Z := t / msPerDay.
Definition TimeWithinDay (t : Z) : Z := t mod msPerDay.

(** Day number to (year, month 0..11, day of month 1..31) in the proleptic
    Gregorian calendar, by 400-year eras starting on 1 March. *)
Definition civil (day : Z) : Z * Z * Z :=
  let z := day + 719468 in
  let era := z / 146097 in
  let doe := z - era * 146097 in
  let yoe := (doe - doe / 1460 + doe / 36524 - doe / 146096) / 365 in
  let doy := doe - (365 * yoe + yoe / 4 - yoe / 100) in
  let mp := (5 * doy + 2) / 153 in
  let d := doy - (153 * mp + 2) / 5 + 1 in
  let m := if mp <? 10 then mp + 3 else mp - 9 in
  (yoe + era * 400 + (if m <=? 2 then 1 else 0), m - 1, d).

Definition YearFromTime (t : Z) : Z := (civil (Day t)).1.1.
Definition MonthFromTime (t : Z) : Z := (civil (Day t)).1.2.
Definition DateFromTime (t : Z) : Z := (civil (Day t)).2.

Definition DayFromYear (y : Z) : Z :=
  365 * (y - 1970) + (y - 1969) / 4 - (y - 1901) / 100 + (y - 1601) / 400.

Definition InLeapYear (y : Z) : bool :=
  bool_decide (y mod 4 = 0)
  && (negb (bool_decide (y mod 100 = 0)) || bool_decide (y mod 400 = 0)).

(** Days before month [m] (0..11) within its year. *)
Definition monthStart (leap : bool) (m : Z) : Z :=
  let l := if leap then 1 else 0 in
  match m with
  | 0 => 0 | 1 => 31 | 2 => 59 + l | 3 => 90 + l | 4 => 120 + l
  | 5 => 151 + l | 6 => 181 + l | 7 => 212 + l | 8 => 243 + l
  | 9 => 273 + l | 10 => 304 + l | _ => 334 + l
  end.

(** MakeDay(year, month, date): months and days outside their range carry
    over, so day 0 is the last day of the month before. *)
Definition MakeDay (year month date : Z) : Z :=
  let ym := year + month / 12 in
  let mn := month mod 12 in
  DayFromYear ym + monthStart (InLeapYear ym) mn + date - 1.

Definition MakeTime (hour min sec ms : Z) : Z :=
  hour * 3600000 + min * msPerMinute + sec * 1000 + ms.

Definition MakeDate (day time : Z) : Z := day * msPerDay + time.

(** [new Date('YYYY-MM-DD')]: a date-only form is read as midnight UTC. *)
Definition parseDateOnly (year month date : Z) : Z :=
  MakeDate (MakeDay year (month - 1) date) 0.

(** The local-time accessors of [Date.prototype]. *)
Definition getFullYear (h : host) (t : Z) : Z := YearFromTime (LocalTime h t).
Definition getMonth (h : host) (t : Z) : Z := MonthFromTime (LocalTime h t).
Definition getDate (h : host) (t : Z) : Z := DateFromTime (LocalTime h t).

Definition setDate (h : host) (t : Z) (date : Z) : Z :=
  let lt := LocalTime h t in
  UTC h (MakeDate (MakeDay (YearFromTime lt) (MonthFromTime lt) date)
                  (TimeWithinDay lt)).

Definition setFullYear (h : host) (t : Z) (year month date : Z) : Z :=
  UTC h (MakeDate (MakeDay year month date) (TimeWithinDay (LocalTime h t))).

Definition setHours (h : host) (t : Z) (hour min sec ms : Z) : Z :=
  UTC h (MakeDate (Day (LocalTime h t)) (MakeTime hour min sec ms)).

(** date-fns. *)
Definition addDays (h : host) (date : Z) (amount : Z) : Z :=
  setDate h date (getDate h date + amount).

Definition subDays (h : host) (date : Z) (amount : Z) : Z :=
  addDays h date (- amount).

Definition startOfMonth (h : host) (date : Z) : Z :=
  setHours h (setDate h date 1) 0 0 0 0.

Definition endOfMonth (h : host) (date : Z) : Z :=
  let month := getMonth h date in
  setHours h (setFullYear h date (getFullYear h date) (month + 1) 0) 23 59 59 999.

Definition startOfYear (h : host) (date : Z) : Z :=
  setHours h (setFullYear h 0 (getFullYear h date) 0 1) 0 0 0 0.

Definition endOfYear (h : host) (date : Z) : Z :=
  let year := getFullYear h date in
  setHours h (setFullYear h date (year + 1) 0 0) 23 59 59 999.

Fixpoint zeros (n : nat) : string :=
  match n with
  | O => ""
  | S n => "0" +:+ zeros n
  end.

(** [String.prototype.padStart(targetLength, '0')] *)
Definition padStart (s : string) (targetLength : nat) : string :=
  zeros (targetLength - String.length s) +:+ s.

Definition addLeadingZeros (number : Z) (targetLength : nat) : string :=
  let sign := if number <? 0 then "-" else "" in
  sign +:+ padStart (pretty (Z.abs number)) targetLength.

(** [format(date, 'yyyy-MM-dd')]: the local calendar date. *)
Definition format_yyyy_MM_dd (h : host) (date : Z) : string :=
  let signedYear := getFullYear h date in
  let year := if 0 <? signedYear then signedYear else 1 - signedYear in
  addLeadingZeros year 4 +:+ "-" +:+
  addLeadingZeros (getMonth h date + 1) 2 +:+ "-" +:+
  addLeadingZeros (getDate h date) 2.

(** [civil] and [MakeDay] name the same day. *)
Definition civil_agrees (day : Z) : bool :=
  let c := civil day in
  (MakeDay c.1.1 c.1.2 c.2 =? day)
  && (0 <=? c.1.2) && (c.1.2 <? 12) && (1 <=? c.2) && (c.2 <=? 31).

(** A check on the [2^k] days from [lo] on. *)
Fixpoint holds_from (check : Z → bool) (k : nat) (lo : Z) : bool :=
  match k with
  | O => check lo
  | S k => holds_from check k lo && holds_from check k (lo + 2 ^ Z.of_nat k)
  end.

(** The calendar date, as printed, of local day number [D]. *)
Definition formatDay (D : Z) : string :=
  format_yyyy_MM_dd (Host 0 0) (MakeDate D 0).

End DateFns.

(* ================================================================== *)
(** * Query planner: [calculateDateRange] and the request parameters *)

Module Planner.
Import Js AccessGate DateFns.

Record range := Range { start : string; end_ : string }.

(** [calculateDateRange] of [pages/Dashboard.tsx] and [pages/Analytics.tsx]
    (the two copies are the same text). *)
Definition calculateDateRange (h : host) (selector : string) : range :=
  let today := now h in
  let '(s, e) :=
    if bool_decide (selector = "7days") then (subDays h today 7, today)
    else if bool_decide (selector = "30days") then (subDays h today 30, today)
    else if bool_decide (selector = "thismonth") then
      (startOfMonth h today, endOfMonth h today)
    else if bool_decide (selector = "thisyear") then
      (startOfYear h today, endOfYear h today)
    else if bool_decide (selector = "alltime") then
      (parseDateOnly 2024 1 1, today)
    else (subDays h today 30, today) in
  Range (format_yyyy_MM_dd h s) (format_yyyy_MM_dd h e).

(** [user && user.role !== 'SUPERADMIN' && user.customerId]: the tenant the
    query is pinned to, when the guard passes. *)
Definition scopedTenant (u : option user) : option string :=
  match u with
  | Some u =>
      if negb (bool_decide (role u = "SUPERADMIN")) && truthy_str (customerId u)
      then customerId u
      else None
  | None => None
  end.

Definition scope (u : option user) (params : list (string * value))
  : list (string * value) :=
  match scopedTenant u with
  | Some tenant => set_entry "customerId" (VStr tenant) params
  | None => params
  end.

(** [analyticsParams] of [loadAnalytics]. *)
Definition analyticsParams (u : option user) (r : range) : value :=
  VObj (scope u [("startDate", VStr (start r)); ("endDate", VStr (end_ r))]).

(** The filter form of the events page. *)
Record filters := Filters {
  f_customerId : string;
  f_userId : string;
  f_vendor : string;
  f_model : string;
  f_apiType : string
}.

Definition filter_entries (f : filters) : list (string * value) :=
  [("customerId", VStr (f_customerId f)); ("userId", VStr (f_userId f));
   ("vendor", VStr (f_vendor f)); ("model", VStr (f_model f));
   ("apiType", VStr (f_apiType f))].

(** [eventsParams] of [loadEvents]: [{...filters, page, size: rowsPerPage}],
    then the tenant. *)
Definition eventsParams (u : option user) (f : filters) (page rowsPerPage : Z)
  : value :=
  VObj (scope u (set_entry "size" (num rowsPerPage)
                   (set_entry "page" (num page) (spread [] (filter_entries f))))).

End Planner.

(* ================================================================== *)
(** * Analytics normalizer: the transforms inside [loadAnalytics] *)

Module Normalizer.
Import Js.

Definition zero : value := num 0.

(** [summary: { totalEvents: data.totalEvents || 0, ... }] *)
Definition summary (data : value) : result value :=
  totalEvents ← get data "totalEvents";
  totalTokens ← get data "totalTokens";
  totalCost ← get data "totalCost";
  totalRevenue ← get data "totalRevenue";
  totalProfit ← get data "totalProfit";
  profitMargin ← get data "profitMargin";
  mret (VObj [("totalEvents", or totalEvents zero);
              ("totalTokens", or totalTokens zero);
              ("totalCost", or totalCost zero);
              ("totalRevenue", or totalRevenue zero);
              ("totalProfit", or totalProfit zero);
              ("profitMargin", or profitMargin zero)]).

(** [data.k || dflt] *)
Definition field_or (data : value) (k : string) (dflt : value) : result value :=
  v ← get data k; mret (or v dflt).

(** The time-series callback of the Dashboard page. *)
Definition dashboardPoint (item : value) : result value :=
  date ← get item "date";
  events ← get item "events";
  cost ← get item "cost";
  revenue ← get item "revenue";
  mret (VObj [("date", date); ("events", or events zero);
              ("cost", or cost zero); ("revenue", or revenue zero)]).

(** The time-series callback of the Analytics page. *)
Definition analyticsPoint (item : value) : result value :=
  date ← get item "date";
  events ← get item "events";
  cost ← get item "cost";
  revenue ← get item "revenue";
  profit ← get item "profit";
  mret (VObj [("date", date); ("events", or events zero);
              ("cost", or cost zero); ("revenue", or revenue zero);
              ("profit", or profit zero)]).

(** The top-customers callback, the same on both pages. *)
Definition topCustomer (customer : value) : result value :=
  organizationName ← get customer "organizationName";
  customerId ← get customer "customerId";
  cost ← get customer "cost";
  events ← get customer "events";
  mret (VObj [("customerName",
               or (or organizationName customerId) (VStr "Unknown"));
              ("totalCost", or cost zero);
              ("eventCount", or events zero)]).

(** [transformedData] of [pages/Dashboard.tsx]. *)
Definition transformDashboard (data : value) : result value :=
  s ← summary data;
  usageByVendor ← field_or data "usageByVendor" (VObj []);
  usageByModel ← field_or data "usageByModel" (VObj []);
  usageByApiType ← field_or data "usageByApiType" (VObj []);
  series ← field_or data "timeSeriesData" (VArr []);
  timeSeriesData ← array_map series dashboardPoint;
  customers ← field_or data "topCustomers" (VArr []);
  topCustomers ← array_map customers topCustomer;
  mret (VObj [("summary", s);
              ("usageByVendor", usageByVendor);
              ("usageByModel", usageByModel);
              ("usageByApiType", usageByApiType);
              ("timeSeriesData", timeSeriesData);
              ("topCustomers", topCustomers)]).

(** [transformedData] of [pages/Analytics.tsx]. *)
Definition transformAnalytics (data : value) : result value :=
  s ← summary data;
  usageByVendor ← field_or data "usageByVendor" (VObj []);
  usageByModel ← field_or data "usageByModel" (VObj []);
  usageByApiType ← field_or data "usageByApiType" (VObj []);
  usageByRegion ← field_or data "usageByRegion" (VObj []);
  usageByEndpoint ← field_or data "usageByEndpoint" (VObj []);
  usageByUserRole ← field_or data "usageByUserRole" (VObj []);
  series ← field_or data "timeSeriesData" (VArr []);
  timeSeriesData ← array_map series analyticsPoint;
  customers ← field_or data "topCustomers" (VArr []);
  topCustomers ← array_map customers topCustomer;
  growthMetrics ← field_or data "growthMetrics" (VObj []);
  predictions ← field_or data "predictions" (VObj []);
  efficiencyMetrics ← field_or data "efficiencyMetrics" (VObj []);
  seasonality ← field_or data "seasonality" (VObj []);
  anomalies ← field_or data "anomalies" (VArr []);
  mret (VObj [("summary", s);
              ("usageByVendor", usageByVendor);
              ("usageByModel", usageByModel);
              ("usageByApiType", usageByApiType);
              ("usageByRegion", usageByRegion);
              ("usageByEndpoint", usageByEndpoint);
              ("usageByUserRole", usageByUserRole);
              ("timeSeriesData", timeSeriesData);
              ("topCustomers", topCustomers);
              ("growthMetrics", growthMetrics);
              ("predictions", predictions);
              ("efficiencyMetrics", efficiencyMetrics);
              ("seasonality", seasonality);
              ("anomalies", anomalies)]).

End Normalizer.

(* ================================================================== *)
(** * The page: state, [loadAnalytics], render switch, category shares *)

Module Dashboard.
Import Js AccessGate DateFns Planner.

(** The [useState] cells of the page. [analyticsData] is the view model or
    [null]; [error] is a message or [null]. *)
Record state := State {
  analyticsData : option value;
  loading : bool;
  error : value;
  dateRange : string;
  startDate : string;
  endDate : string
}.

(** [err.response?.data?.message || err.message
     || 'Failed to load analytics data'] *)
Definition failureMessage (err : Js.error) : value :=
  let served :=
    match err_response err with
    | Some r => get_opt (data r) "message"
    | None => VUndefined
    end in
  or (or served (VStr (err_message err))) (VStr "Failed to load analytics data").

(** [loadAnalytics], run to completion. [getAnalytics] stands for the
    awaited [apiService.getAnalytics], [transform] for the page's
    normalizer; a throw of either lands in the [catch]. *)
Definition loadAnalytics
    (h : host) (u : option user)
    (getAnalytics : value → result value)
    (transform : value → result value)
    (st : state) : state :=
  let r := calculateDateRange h (dateRange st) in
  (* setLoading(true); setError(null); setStartDate(start); setEndDate(end) *)
  let st1 := State (analyticsData st) true VNull (dateRange st) (start r) (end_ r) in
  let st2 :=
    match (data ← getAnalytics (analyticsParams u r); transform data) with
    | Ok transformedData =>
        State (Some transformedData) (loading st1) (error st1)
              (dateRange st1) (startDate st1) (endDate st1)
    | Throw err =>
        State (analyticsData st1) (loading st1) (failureMessage err)
              (dateRange st1) (startDate st1) (endDate st1)
    end in
  (* finally: setLoading(false) *)
  State (analyticsData st2) false (error st2)
        (dateRange st2) (startDate st2) (endDate st2).

(** The early returns of the component body. *)
Inductive view : Type :=
| LoadingNotice
| ErrorAlert (message : value)
| NoData
| Charts (model : value).

Definition render (st : state) : view :=
  if loading st then LoadingNotice
  else if truthy (error st) then ErrorAlert (error st)
  else match analyticsData st with
       | None => NoData
       | Some model => Charts model
       end.

(** The category shares with numbers read as exact rationals, without the
    rounding of the engine ([Charts] has the shares as the page computes
    them).

    [Object.values(counts).reduce((a, b) => a + b, 0)] on a
    [Record<string, number>], given by its entries. *)
Definition sumValues (counts : list (string * Qc)) : Qc :=
  fold_left Qcplus (map snd counts) (Qc_of_Z 0).

(** [Object.entries(counts).map(([name, count]) =>
      ({ name, value: sum > 0 ? (count / sum) * 100 : 0 }))] *)
Definition shareData (counts : list (string * Qc)) : list (string * Qc) :=
  let sum := sumValues counts in
  map (fun '(name, count) =>
         (name, if bool_decide (Qc_of_Z 0 < sum)%Qc
                then (count / sum * Qc_of_Z 100)%Qc
                else Qc_of_Z 0))
      counts.

Definition vendorData (usageByVendor : list (string * Qc)) := shareData usageByVendor.
Definition modelData (usageByModel : list (string * Qc)) := shareData usageByModel.
Definition apiTypeData (usageByApiType : list (string * Qc)) := shareData usageByApiType.

End Dashboard.

(* ================================================================== *)
(** * Numbers of the engine: IEEE 754 binary64 *)

(** The Number type, with the arithmetic of the standard library's
    specification of floating-point numbers at 53 bits of precision:
    every operation rounds to nearest, ties to even. *)
Module Binary64.
Import SpecFloat.

Definition number : Type := spec_float.

Definition prec : Z := 53.
Definition emax : Z := 1024.

(** A numeric literal with an integer value. *)
Definition of_Z (z : Z) : number := binary_normalize prec emax z 0 false.

Definition zero : number := S754_zero false.

(** [a + b], [a * b], [a / b] *)
Definition add : number → number → number := SFadd prec emax.
Definition mul : number → number → number := SFmul prec emax.
Definition div : number → number → number := SFdiv prec emax.

(** [a > b] and [a === b]: false whenever one side is [NaN]. *)
Definition gt (a b : number) : bool := SFltb b a.
Definition strict_eq (a b : number) : bool := SFeqb a b.

(** The rational a finite number stands for. *)
Definition toQ (x : number) : option Qc :=
  match x with
  | S754_zero _ => Some (Qc_of_Z 0)
  | S754_finite s m e =>
      let n := if s then Z.neg m else Z.pos m in
      Some (if 0 <=? e then Qc_of_Z (n * 2 ^ e)
            else Q2Qc (Qmake n (Z.to_pos (2 ^ (- e)))))
  | S754_infinity _ | S754_nan => None
  end.

(** A number of sign [s]: a zero, a finite number or an infinity, not
    [NaN]. *)
Inductive signed (s : bool) : number → Prop :=
| signed_zero : signed s (S754_zero s)
| signed_finite (m : positive) (e : Z) : signed s (S754_finite s m e)
| signed_infinity : signed s (S754_infinity s).

(** Zero, a positive number or [Infinity]: neither negative nor [NaN]. *)
Definition nonneg (x : number) : bool :=
  match x with
  | S754_zero _ | S754_finite false _ _ | S754_infinity false => true
  | _ => false
  end.

(** A count: a finite number that is not negative. *)
Definition is_count (x : number) : bool :=
  match x with
  | S754_zero _ | S754_finite false _ _ => true
  | _ => false
  end.

End Binary64.

(* ================================================================== *)
(** * Category shares of the dashboard *)

(** The pie charts of [pages/Dashboard.tsx], in the arithmetic of the
    engine. *)
Module Charts.
Import Binary64.

(** [Object.values(counts).reduce((a, b) => a + b, 0)] on a
    [Record<string, number>], given by its entries. *)
Definition sumValues (counts : list (string * number)) : number :=
  fold_left add (map snd counts) zero.

(** [Object.entries(counts).map(([name, count]) =>
      ({ name, value: sum > 0 ? (count / sum) * 100 : 0 }))] *)
Definition shareData (counts : list (string * number)) : list (string * number) :=
  let sum := sumValues counts in
  map (fun '(name, count) =>
         (name, if gt sum zero then mul (div count sum) (of_Z 100) else zero))
      counts.

Definition vendorData (usageByVendor : list (string * number)) := shareData usageByVendor.
Definition modelData (usageByModel : list (string * number)) := shareData usageByModel.
Definition apiTypeData (usageByApiType : list (string * number)) := shareData usageByApiType.

(** The share as the specification writes it, [100 × count / total], in exact
    arithmetic; for finite numbers. *)
Definition exactShare (count total : number) : option Qc :=
  match toQ count, toQ total with
  | Some c, Some t => Some (Qc_of_Z 100 * c / t)%Qc
  | _, _ => None
  end.

End Charts.

(* ================================================================== *)
(** * Populated payloads *)

(** A payload with every field of [AnalyticsResponse] filled in, typed as
    the interface types it, and the two JavaScript objects it is compared
    with: the payload as the backend sends it, and the view model that keeps
    each of its values. *)
Module Populated.
Import Js.

Record point := Point {
  p_date : string;
  p_events : Qc; p_tokens : Qc; p_cost : Qc; p_revenue : Qc; p_profit : Qc
}.

Record customer := Customer {
  c_customerId : string;
  c_organizationName : string;
  c_events : Qc; c_tokens : Qc; c_cost : Qc; c_revenue : Qc; c_profit : Qc;
  c_profitMargin : Qc
}.

Record payload := Payload {
  period : string; startDate : string; endDate : string;
  totalEvents : Qc; totalTokens : Qc; totalCost : Qc;
  totalRevenue : Qc; totalProfit : Qc; profitMargin : Qc;
  usageByVendor : list (string * Qc);
  usageByModel : list (string * Qc);
  usageByApiType : list (string * Qc);
  usageByRegion : list (string * Qc);
  usageByEndpoint : list (string * Qc);
  usageByUserRole : list (string * Qc);
  costByVendor : list (string * Qc);
  costByModel : list (string * Qc);
  costByApiType : list (string * Qc);
  timeSeriesData : list point;
  topCustomers : list customer;
  topUsers : list value;
  growthMetrics : list (string * value);
  predictions : list (string * value);
  efficiencyMetrics : list (string * value);
  seasonality : list (string * value);
  anomalies : list value
}.

(** A [Record<string, number>]. *)
Definition counts (m : list (string * Qc)) : value :=
  VObj (map (fun kv => (fst kv, VNum (snd kv))) m).

Definition wirePoint (p : point) : value :=
  VObj [("date", VStr (p_date p)); ("events", VNum (p_events p));
        ("tokens", VNum (p_tokens p)); ("cost", VNum (p_cost p));
        ("revenue", VNum (p_revenue p)); ("profit", VNum (p_profit p))].

Definition wireCustomer (c : customer) : value :=
  VObj [("customerId", VStr (c_customerId c));
        ("organizationName", VStr (c_organizationName c));
        ("events", VNum (c_events c)); ("tokens", VNum (c_tokens c));
        ("cost", VNum (c_cost c)); ("revenue", VNum (c_revenue c));
        ("profit", VNum (c_profit c));
        ("profitMargin", VNum (c_profitMargin c))].

(** The payload on the wire. *)
Definition wire (p : payload) : value :=
  VObj [("period", VStr (period p));
        ("startDate", VStr (startDate p));
        ("endDate", VStr (endDate p));
        ("totalEvents", VNum (totalEvents p));
        ("totalTokens", VNum (totalTokens p));
        ("totalCost", VNum (totalCost p));
        ("totalRevenue", VNum (totalRevenue p));
        ("totalProfit", VNum (totalProfit p));
        ("profitMargin", VNum (profitMargin p));
        ("usageByVendor", counts (usageByVendor p));
        ("usageByModel", counts (usageByModel p));
        ("usageByApiType", counts (usageByApiType p));
        ("usageByRegion", counts (usageByRegion p));
        ("usageByEndpoint", counts (usageByEndpoint p));
        ("usageByUserRole", counts (usageByUserRole p));
        ("costByVendor", counts (costByVendor p));
        ("costByModel", counts (costByModel p));
        ("costByApiType", counts (costByApiType p));
        ("timeSeriesData", VArr (map wirePoint (timeSeriesData p)));
        ("topCustomers", VArr (map wireCustomer (topCustomers p)));
        ("topUsers", VArr (topUsers p));
        ("growthMetrics", VObj (growthMetrics p));
        ("predictions", VObj (predictions p));
        ("efficiencyMetrics", VObj (efficiencyMetrics p));
        ("seasonality", VObj (seasonality p));
        ("anomalies", VArr (anomalies p))].







(** One populated payload, for the examples. *)
Definition sample : payload :=
  let q := Qc_of_Z in
  Payload "daily" "2025-03-08" "2025-03-15"
          (q 4) (q 1200) (q 3) (q 5) (q 2) (q 40)
          [("openai", q 3); ("anthropic", q 1)] [("gpt-4", q 4)] [("chat", q 4)]
          [("us-east", q 4)] [("/v1/chat", q 4)] [("ADMIN", q 4)]
          [("openai", q 2)] [("gpt-4", q 3)] [("chat", q 3)]
          [Point "2025-03-14" (q 4) (q 1200) (q 3) (q 5) (q 2)]
          [Customer "techcorp" "TechCorp" (q 4) (q 1200) (q 3) (q 5) (q 2) (q 40)]
          []
          [("eventsGrowth", VNum (q 10))] [("predictedEvents", VNum (q 5))]
          [("costPerEvent", VNum (q 1))] [("weeklyPattern", VObj [])]
          [VObj [("date", VStr "2025-03-14"); ("type", VStr "spike");
                 ("metric", VStr "cost"); ("description", VStr "cost spike")]].

End Populated.

(* ================================================================== *)
(** * Routes and navigation: [App.tsx], [components/Header.tsx] *)

Module App.

(** A [<Route>] wrapped in [<ProtectedRoute>], with the flags it passes. *)
Record route := Route {
  path : string;
  requireAdmin : bool;
  requireSuperAdmin : bool
}.

Definition protectedRoutes : list route :=
  [Route "/" false false;
   Route "/events" false false;
   Route "/analytics" false false;
   Route "/customers" false true;
   Route "/users" true false].

End App.

Module Header.
Import AccessGate.

(** [user?.role === r] *)
Definition role_is (u : option user) (r : string) : bool :=
  match u with
  | Some u => bool_decide (role u = r)
  | None => false
  end.

(** [navItems]: path and label of each item. *)
Definition navItems (u : option user) : list (string * string) :=
  [("/", "Dashboard"); ("/events", "Events"); ("/analytics", "Analytics")]
  ++ (if role_is u "SUPERADMIN" then [("/customers", "Customers")] else [])
  ++ (if role_is u "ADMIN" || role_is u "SUPERADMIN"
      then [("/users", "Users")] else []).

(** The navigation of the toolbar: below the [md] breakpoint a menu icon
    with no handler, otherwise one button per item of [navItems], each with
    [onClick={() => navigate(item.path)}]. *)
Inductive navigation : Type :=
| MenuIcon
| Buttons (items : list (string * string)).

Definition toolbar (isMobile : bool) (u : option user) : navigation :=
  if isMobile then MenuIcon else Buttons (navItems u).

(** The paths the toolbar has a button for. *)
Definition buttonPaths (nav : navigation) : list string :=
  match nav with
  | MenuIcon => []
  | Buttons items => items.*1
  end.

End Header.

(* ================================================================== *)
(** * Calls through [apiService] *)

Module Api.
Import Js.

(** A call on the axios instance: method, URL, and query parameters or
    body. *)
Inductive request : Type :=
| Get (url : string) (params : value)
| Post (url : string) (body : value)
| Put (url : string) (body : value)
| Delete (url : string).

(** The [apiService] members the pages below call; each resolves to
    [response.data]. *)
Definition login (credentials : value) : request := Post "/api/auth/login" credentials.
Definition addRandomEvents (payload : value) : request :=
  Post "/api/test/add-random-events" payload.
Definition getEvents (params : value) : request := Get "/api/events" params.
Definition getAnalytics (params : value) : request := Get "/api/analytics/usage" params.
Definition getCustomers : request := Get "/api/customers" VUndefined.
Definition createCustomer (customer : value) : request := Post "/api/customers" customer.
Definition updateCustomer (customerId : string) (customer : value) : request :=
  Put ("/api/customers/" +:+ customerId) customer.
Definition deleteCustomer (customerId : string) : request :=
  Delete ("/api/customers/" +:+ customerId).
Definition getUsers : request := Get "/api/users" VUndefined.
Definition createUser (user : value) : request := Post "/api/users" user.
Definition updateUser (userId : string) (user : value) : request :=
  Put ("/api/users/" +:+ userId) user.
Definition deleteUser (userId : string) : request := Delete ("/api/users/" +:+ userId).

(** How the backend answers the calls one handler makes. *)
Definition backend : Type := request → result value.

(** [err.response?.data?.message || err.message || fallback], the message
    every page's [catch] computes. *)
Definition failureMessageOr (fallback : string) (err : Js.error) : value :=
  let served :=
    match err_response err with
    | Some r => get_opt (data r) "message"
    | None => VUndefined
    end in
  or (or served (VStr (err_message err))) (VStr fallback).

End Api.

(* ================================================================== *)
(** * The events page: [pages/Events.tsx] *)

Module Events.
Import Js AccessGate Planner Api.

Record state := State {
  events : value;
  customers : value;
  loading : bool;
  error : value;
  page : Z;
  rowsPerPage : Z;
  totalElements : value;
  filters : list (string * value)
}.

(** The [useState] initial values. *)
Definition initial : state :=
  State (VArr []) (VArr []) true VNull 0 10 (num 0)
        (filter_entries (Filters "" "" "" "" "")).

(** [eventsParams] on the filter object as the state holds it. *)
Definition eventsParamsOf (u : option user) (f : list (string * value))
    (page rowsPerPage : Z) : value :=
  VObj (scope u (set_entry "size" (num rowsPerPage)
                   (set_entry "page" (num page) (spread [] f)))).

(** [loadEvents], run to completion, with the calls it made. *)
Definition loadEvents (u : option user) (api : backend) (st : state)
  : state * list request :=
  let call := getEvents (eventsParamsOf u (filters st) (page st) (rowsPerPage st)) in
  let outcome :=
    response ← api call;
    content ← get response "content";
    total ← get response "totalElements";
    mret (content, total) in
  match outcome with
  | Ok (content, total) =>
      (State content (customers st) false (error st) (page st) (rowsPerPage st)
             total (filters st), [call])
  | Throw err =>
      (State (events st) (customers st) false
             (failureMessageOr "Failed to load events" err)
             (page st) (rowsPerPage st) (totalElements st) (filters st), [call])
  end.

(** [loadCustomers] of the events page: only a SUPERADMIN asks the
    backend. *)
Definition loadCustomers (u : option user) (api : backend) (st : state)
  : state * list request :=
  let set c := State (events st) c (loading st) (error st) (page st)
                     (rowsPerPage st) (totalElements st) (filters st) in
  if Header.role_is u "SUPERADMIN" then
    match api getCustomers with
    | Ok response => (set response, [getCustomers])
    | Throw _ => (set (VArr []), [getCustomers])
    end
  else (set (VArr []), []).

Definition handleChangePage (newPage : Z) (st : state) : state :=
  State (events st) (customers st) (loading st) (error st) newPage
        (rowsPerPage st) (totalElements st) (filters st).

(** [setFilters(prev => ({ ...prev, [field]: value })); setPage(0)] *)
Definition handleFilterChange (field value : string) (st : state) : state :=
  State (events st) (customers st) (loading st) (error st) 0
        (rowsPerPage st) (totalElements st)
        (set_entry field (VStr value) (spread [] (filters st))).

End Events.

(* ================================================================== *)
(** * The customers and users pages: [pages/Customers.tsx],
      [pages/Users.tsx] *)

(** The two pages are the same handlers over different endpoints and
    messages; [resource] holds what differs. *)
Module Crud.
Import Js Api.

Record resource := Resource {
  list_ : request;
  create : value → request;
  update : string → value → request;
  delete_ : string → request;
  loadFailed : string;
  deleteFailed : string;
  saveFailed : string
}.

(** A row of the table: its id ([customerId] or [userId]) and the object. *)
Record entity := Entity { id : string; body : value }.

Record state := State {
  items : value;
  loading : bool;
  error : value;
  showDialog : bool;
  editing : option entity
}.

Definition initial : state := State (VArr []) true VNull false None.

(** [loadCustomers] / [loadUsers] *)
Definition load (r : resource) (api : backend) (st : state) : state * list request :=
  match api (list_ r) with
  | Ok response =>
      (State response false (error st) (showDialog st) (editing st), [list_ r])
  | Throw err =>
      (State (items st) false (failureMessageOr (loadFailed r) err)
             (showDialog st) (editing st), [list_ r])
  end.

(** [handleAddCustomer] / [handleAddUser] *)
Definition handleAdd (st : state) : state :=
  State (items st) (loading st) (error st) true None.

(** [handleEditCustomer] / [handleEditUser] *)
Definition handleEdit (e : entity) (st : state) : state :=
  State (items st) (loading st) (error st) true (Some e).

(** [handleDeleteCustomer] / [handleDeleteUser]; [confirmed] is the answer
    to [window.confirm]. *)
Definition handleDelete (r : resource) (api : backend) (confirmed : bool)
    (target : string) (st : state) : state * list request :=
  if confirmed then
    match api (delete_ r target) with
    | Ok _ =>
        let '(st', calls) := load r api st in (st', delete_ r target :: calls)
    | Throw _ =>
        (State (items st) (loading st) (VStr (deleteFailed r))
               (showDialog st) (editing st), [delete_ r target])
    end
  else (st, []).

(** [handleSaveCustomer] / [handleSaveUser] *)
Definition handleSave (r : resource) (api : backend) (formData : value)
    (st : state) : state * list request :=
  let call :=
    match editing st with
    | Some e => update r (id e) formData
    | None => create r formData
    end in
  match api call with
  | Ok _ =>
      let closed := State (items st) (loading st) (error st) false (editing st) in
      let '(st', calls) := load r api closed in (st', call :: calls)
  | Throw _ =>
      (State (items st) (loading st) (VStr (saveFailed r))
             (showDialog st) (editing st), [call])
  end.

End Crud.

Module Customers.
Import Api Crud.

Definition resource : Crud.resource :=
  Resource getCustomers createCustomer updateCustomer deleteCustomer
           "Failed to load customers" "Failed to delete customer"
           "Failed to save customer".

Definition loadCustomers := load resource.
Definition handleDeleteCustomer := handleDelete resource.
Definition handleSaveCustomer := handleSave resource.

End Customers.

Module Users.
Import Api Crud.

Definition resource : Crud.resource :=
  Resource getUsers createUser updateUser deleteUser
           "Failed to load users" "Failed to delete user" "Failed to save user".

Definition loadUsers := load resource.
Definition handleDeleteUser := handleDelete resource.
Definition handleSaveUser := handleSave resource.

End Users.

(* ================================================================== *)
(** * The login page: [pages/Login.tsx] *)

Module Login.
Import Js Api.

Record state := State {
  email : string;
  password : string;
  error : value;
  isLoading : bool
}.

(** [handleSubmit], run to completion, with the path it navigated to, if
    any. [login] stands for the awaited [login] of the auth context. *)
Definition handleSubmit (login : string → string → result value) (st : state)
  : state * option string :=
  match login (email st) (password st) with
  | Ok _ => (State (email st) (password st) (VStr "") false, Some "/")
  | Throw err =>
      (State (email st) (password st) (failureMessageOr "Login failed" err) false,
       None)
  end.

End Login.

(* ================================================================== *)
(** * The dashboard's add-events button *)

Module AddEvents.
Import Js AccessGate DateFns Api.

(** The page state with the [addingEvents] cell. *)
Record state := State {
  page : Dashboard.state;
  addingEvents : bool
}.

(** [handleAddRandomEvents]: the reload runs only after the add went
    through, and settles its own failures. *)
Definition handleAddRandomEvents
    (h : host) (u : option user) (api : backend)
    (transform : value → result value) (st : state) : state :=
  let payload := VObj [("count", num 10); ("todayOnly", VBool true)] in
  match api (addRandomEvents payload) with
  | Ok _ =>
      State (Dashboard.loadAnalytics h u (λ params, api (getAnalytics params))
                                     transform (page st))
            false
  | Throw _ =>
      let p := page st in
      State (Dashboard.State (Dashboard.analyticsData p) (Dashboard.loading p)
                             (VStr "Failed to add random events")
                             (Dashboard.dateRange p) (Dashboard.startDate p)
                             (Dashboard.endDate p))
            false
  end.

End AddEvents.

(* ================================================================== *)
(** * Checks used by the properties below *)

Module Checks.
Import Js DateFns.

(** The computation returned rather than threw. *)
Definition is_ok {A} (r : result A) : bool :=
  match r with
  | Ok _ => true
  | Throw _ => false
  end.

(** A truthy value or the number 0: what [x || 0] can be. *)
Definition defaulted (v : value) : Prop := truthy v = true ∨ v = Normalizer.zero.

(** [undefined] or [null]. *)
Definition nullish (v : value) : bool :=
  match v with
  | VUndefined | VNull => true
  | _ => false
  end.

(** A sequence field the transforms can walk: missing (or otherwise falsy),
    or an array without [null]/[undefined] items. *)
Definition seriesOk (v : value) : bool :=
  if truthy v then
    match v with
    | VArr items => forallb (λ i, negb (nullish i)) items
    | _ => false
    end
  else true.

Definition payloadOk (d : value) : bool :=
  negb (nullish d)
  && seriesOk (get_opt d "timeSeriesData")
  && seriesOk (get_opt d "topCustomers").

(** The day number of the first of month [m] (0..11; 12 is January of the
    next year) of year [y]. *)
Definition firstOfMonth (y m : Z) : Z := MakeDay y m 1.

(** The two printed dates are the expected ones. *)
Definition bothEqual (a b a' b' : string) : bool :=
  bool_decide (a = a') && bool_decide (b = b').

End Checks.

(* ================================================================== *)
(** * Properties of the request gateway *)

Section GatewayProperties.
Import Js Gateway.

Lemma truthy_str_Some (t : string) : t ≠ "" → truthy_str (Some t) = true.
Proof. intros Ht. unfold truthy_str. by rewrite bool_decide_eq_false_2. Qed.

Lemma is_401_true (e : error) (r : response) :
  err_response e = Some r → status r = 401 → is_401 e = true.
Proof. intros He Hs. unfold is_401. rewrite He. by apply bool_decide_eq_true_2. Qed.

Lemma is_401_false (e : error) :
  (∀ r, err_response e = Some r → status r ≠ 401) → is_401 e = false.
Proof.
  intros H. unfold is_401. destruct (err_response e) as [r|]; [|done].
  apply bool_decide_eq_false_2. by apply H.
Qed.

(** C2: on a rejection whose response has status 401 the interceptor removes
    [token] and [user] from storage (and nothing else), sends the browser to
    [/login] and rejects with the same error; on any other rejection it leaves
    the browser as it is and rejects with the same error; a fulfilled response
    is handed on as it is. *)
Theorem response_interceptor_clears_session_on_401 :
  ∀ (b : browser) (e : error) (r : response),
    response_fulfilled b r = (b, Resolved r)
    ∧ (response_rejected b e).2 = Rejected e
    ∧ (err_response e = Some r → status r = 401 →
         let b' := (response_rejected b e).1 in
         localStorage b' !! "token" = None
         ∧ localStorage b' !! "user" = None
         ∧ location_href b' = "/login"
         ∧ ∀ k, k ≠ "token" → k ≠ "user" →
                localStorage b' !! k = localStorage b !! k)
    ∧ ((∀ r', err_response e = Some r' → status r' ≠ 401) →
         response_rejected b e = (b, Rejected e)).
Proof.
  intros b e r. split; [done|]. split.
  { unfold response_rejected. by destruct (is_401 e). }
  split.
  - intros He Hs. unfold response_rejected. rewrite (is_401_true e r He Hs).
    cbn. repeat split.
    + rewrite lookup_delete_ne by done. apply lookup_delete_eq.
    + apply lookup_delete_eq.
    + intros k Hk1 Hk2. by rewrite !lookup_delete_ne.
  - intros H. unfold response_rejected. by rewrite is_401_false.
Qed.

Lemma response_interceptor_clears_session_on_401_witness :
  let b := Browser {["token" := "abc"; "user" := "{}"; "theme" := "dark"]} "/analytics" in
  let e401 := Error (Some (Response 401 VNull)) "Request failed with status code 401" in
  let e500 := Error (Some (Response 500 VNull)) "Request failed with status code 500" in
  (localStorage (response_rejected b e401).1 !! "token" = None
   ∧ localStorage (response_rejected b e401).1 !! "user" = None
   ∧ location_href (response_rejected b e401).1 = "/login"
   ∧ localStorage (response_rejected b e401).1 !! "theme" = Some "dark")
  ∧ response_rejected b e500 = (b, Rejected e500).
Proof.
  intros b e401 e500. split.
  - destruct (response_interceptor_clears_session_on_401 b e401 (Response 401 VNull))
      as (_ & _ & H & _).
    destruct (H eq_refl eq_refl) as (Ht & Hu & Hl & Hk).
    split; [exact Ht|]. split; [exact Hu|]. split; [exact Hl|].
    rewrite Hk by done. vm_compute. reflexivity.
  - destruct (response_interceptor_clears_session_on_401 b e500 (Response 500 VNull))
      as (_ & _ & _ & H).
    apply H. intros r' Hr'. injection Hr' as <-. cbn. lia.
Defined.

(** The whole inbound path for a backend answer: 401 is not a 2xx status, so
    it reaches the rejection handler. *)
Lemma receive_401 (b : browser) (r : response) :
  status r = 401 →
  receive b r =
    (Browser (delete "user" (delete "token" (localStorage b))) "/login",
     Rejected (Error (Some r) "Request failed")).
Proof.
  intros Hs. unfold receive, validateStatus. rewrite Hs. cbn.
  unfold response_rejected, is_401. cbn. rewrite Hs. reflexivity.
Qed.

Lemma receive_2xx (b : browser) (r : response) :
  200 ≤ status r < 300 → receive b r = (b, Resolved r).
Proof.
  intros [H1 H2]. unfold receive, validateStatus.
  rewrite !bool_decide_eq_true_2 by done. reflexivity.
Qed.

(** C4: a call made through [api] leaves with [Authorization: Bearer <token>]
    when storage holds a non-empty token, everything else in the config kept;
    with no token stored (or an empty one) the config goes out as it came,
    without an [Authorization] header. *)
Theorem request_interceptor_attaches_bearer :
  ∀ (b : browser) (c : config) (u : string) (p : value),
    (∀ t, localStorage b !! "token" = Some t → t ≠ "" →
          headers (request_fulfilled b c) !! "Authorization" = Some ("Bearer " +:+ t)
          ∧ (∀ k, k ≠ "Authorization" →
                  headers (request_fulfilled b c) !! k = headers c !! k)
          ∧ url (request_fulfilled b c) = url c
          ∧ params (request_fulfilled b c) = params c)
    ∧ (localStorage b !! "token" = None ∨ localStorage b !! "token" = Some "" →
          request_fulfilled b c = c
          ∧ headers (request_fulfilled b (apiConfig u p)) !! "Authorization" = None).
Proof.
  intros b c u p. split.
  - intros t Ht Hne. unfold request_fulfilled. rewrite Ht, truthy_str_Some by done.
    cbn. repeat split.
    + apply lookup_insert_eq.
    + intros k Hk. by rewrite lookup_insert_ne.
  - intros [H|H]; unfold request_fulfilled; rewrite H; done.
Qed.

Lemma request_interceptor_attaches_bearer_witness :
  headers (request_fulfilled (Browser {["token" := "abc"]} "/")
             (apiConfig "/api/events" VUndefined)) !! "Authorization"
    = Some "Bearer abc"
  ∧ headers (request_fulfilled (Browser ∅ "/login")
               (apiConfig "/api/auth/login" VUndefined)) !! "Authorization"
    = None.
Proof.
  split.
  - destruct (request_interceptor_attaches_bearer
                (Browser {["token" := "abc"]} "/")
                (apiConfig "/api/events" VUndefined) "" VUndefined) as [H _].
    exact (proj1 (H "abc" eq_refl ltac:(discriminate))).
  - destruct (request_interceptor_attaches_bearer
                (Browser ∅ "/login") (apiConfig "/api/auth/login" VUndefined)
                "/api/auth/login" VUndefined) as [_ H].
    exact (proj2 (H (or_introl eq_refl))).
Defined.

End GatewayProperties.

(* ================================================================== *)
(** * Properties of the access gate *)

Section AccessGateProperties.
Import AccessGate.

(** C3: while the controller is loading the gate shows the spinner, whatever
    the rest; once loaded, an unauthenticated visitor is sent to [/login] with
    the requested location kept; a USER on an admin route and an ADMIN on a
    superadmin route are sent to [/]; a SUPERADMIN is let through on every
    route. *)
Theorem protected_route_decisions :
  ∀ (A : Type) (children : A) (location : string)
    (requireAdmin requireSuperAdmin authenticated : bool)
    (u : option user) (tenant : option string),
    ProtectedRoute (Auth authenticated true u) location
                   requireAdmin requireSuperAdmin children = Spinner
    ∧ ProtectedRoute (Auth false false u) location
                     requireAdmin requireSuperAdmin children
      = Navigate "/login" (Some location) true
    ∧ ProtectedRoute (Auth true false (Some (User "USER" tenant))) location
                     true requireSuperAdmin children
      = Navigate "/" None true
    ∧ ProtectedRoute (Auth true false (Some (User "ADMIN" tenant))) location
                     requireAdmin true children
      = Navigate "/" None true
    ∧ ProtectedRoute (Auth true false (Some (User "SUPERADMIN" tenant))) location
                     requireAdmin requireSuperAdmin children
      = Children children.
Proof.
  intros A children location ra rs authd u tenant.
  repeat split; try reflexivity.
  - by destruct ra.
  - by destruct ra, rs.
Qed.

(** The admitted cases below SUPERADMIN, for completeness of the table. *)
Lemma protected_route_admits (A : Type) (children : A) (location : string) :
  ∀ tenant,
    ProtectedRoute (Auth true false (Some (User "USER" tenant))) location
                   false false children = Children children
    ∧ ProtectedRoute (Auth true false (Some (User "ADMIN" tenant))) location
                     true false children = Children children.
Proof. intros tenant. split; reflexivity. Qed.

End AccessGateProperties.

(* ================================================================== *)
(** * Properties of the query planner: tenant scope *)

Section TenantScope.
Import Js AccessGate Planner.

Lemma assoc_set_entry (k : string) (v : value) (entries : list (string * value)) :
  assoc k (set_entry k v entries) = v.
Proof.
  induction entries as [|[k' v'] rest IH]; cbn.
  - by rewrite bool_decide_eq_true_2.
  - destruct (bool_decide (k = k')) eqn:E; cbn.
    + by rewrite bool_decide_eq_true_2.
    + by rewrite E.
Qed.

Lemma assoc_set_entry_ne (k k' : string) (v : value) (entries : list (string * value)) :
  k ≠ k' → assoc k (set_entry k' v entries) = assoc k entries.
Proof.
  intros Hne. induction entries as [|[k0 v0] rest IH]; cbn.
  - by rewrite bool_decide_eq_false_2.
  - destruct (bool_decide (k' = k0)) eqn:E; cbn.
    + apply bool_decide_eq_true_1 in E. subst k0.
      by rewrite !bool_decide_eq_false_2.
    + by rewrite IH.
Qed.

Lemma scopedTenant_below_superadmin (u : user) (tenant : string) :
  role u ≠ "SUPERADMIN" → customerId u = Some tenant → tenant ≠ "" →
  scopedTenant (Some u) = Some tenant.
Proof.
  intros Hr Hc Ht. unfold scopedTenant.
  rewrite bool_decide_eq_false_2 by done. rewrite Hc. cbn.
  by rewrite bool_decide_eq_false_2.
Qed.

Lemma scope_pins_customerId (u : user) (tenant : string) (params : list (string * value)) :
  role u ≠ "SUPERADMIN" → customerId u = Some tenant → tenant ≠ "" →
  assoc "customerId" (scope (Some u) params) = VStr tenant.
Proof.
  intros Hr Hc Ht. unfold scope.
  rewrite (scopedTenant_below_superadmin u tenant) by done.
  apply assoc_set_entry.
Qed.

Lemma scopedTenant_without_customerId (u : user) :
  customerId u = None ∨ customerId u = Some "" → scopedTenant (Some u) = None.
Proof.
  intros [H|H]; unfold scopedTenant; rewrite H; by destruct (negb _).
Qed.

(** C1, as the code has it. For a signed-in user whose role is not
    SUPERADMIN: when the tenant id is a non-empty string, the analytics query
    and the events query both carry [customerId] equal to that tenant,
    whatever the filter form holds, and the dates of the analytics query are
    untouched; when the tenant id is missing or the empty string, the guard
    [&& user.customerId] fails and both queries go out as they were built:
    the analytics query is the two dates, the events query is the filter form
    with the page and the page size. (For such a user the form's [customerId]
    is always the empty string, its select being rendered for SUPERADMIN
    only; the statement holds whatever it is.) *)
Theorem queries_pinned_to_own_tenant :
  ∀ (u : user) (r : range) (f : filters) (page rowsPerPage : Z),
    role u ≠ "SUPERADMIN" →
    (∀ tenant : string,
       customerId u = Some tenant → tenant ≠ "" →
       get_opt (analyticsParams (Some u) r) "customerId" = VStr tenant
       ∧ get_opt (eventsParams (Some u) f page rowsPerPage) "customerId" = VStr tenant
       ∧ get_opt (analyticsParams (Some u) r) "startDate" = VStr (start r)
       ∧ get_opt (analyticsParams (Some u) r) "endDate" = VStr (end_ r))
    ∧ (customerId u = None ∨ customerId u = Some "" →
       analyticsParams (Some u) r
       = VObj [("startDate", VStr (start r)); ("endDate", VStr (end_ r))]
       ∧ eventsParams (Some u) f page rowsPerPage
         = VObj [("customerId", VStr (f_customerId f));
                 ("userId", VStr (f_userId f));
                 ("vendor", VStr (f_vendor f));
                 ("model", VStr (f_model f));
                 ("apiType", VStr (f_apiType f));
                 ("page", num page); ("size", num rowsPerPage)]).
Proof.
  intros u r f page rows Hr. split.
  - intros tenant Hc Ht.
    unfold analyticsParams, eventsParams, get_opt.
    rewrite !(scope_pins_customerId u tenant) by done.
    unfold scope. rewrite (scopedTenant_below_superadmin u tenant) by done.
    rewrite !assoc_set_entry_ne by done. done.
  - intros Hc. unfold analyticsParams, eventsParams, scope.
    rewrite (scopedTenant_without_customerId u Hc). done.
Qed.

Lemma queries_pinned_to_own_tenant_witness :
  let u := User "ADMIN" (Some "techcorp") in
  let v := User "USER" (Some "") in
  let r := Range "2025-03-08" "2025-03-15" in
  let f := Filters "" "" "openai" "" "" in
  (get_opt (analyticsParams (Some u) r) "customerId" = VStr "techcorp"
   ∧ get_opt (eventsParams (Some u) f 0 10) "customerId" = VStr "techcorp")
  ∧ (analyticsParams (Some v) r
     = VObj [("startDate", VStr "2025-03-08"); ("endDate", VStr "2025-03-15")]
     ∧ get_opt (eventsParams (Some v) f 0 10) "customerId" = VStr "").
Proof.
  intros u v r f. split.
  - destruct (proj1 (queries_pinned_to_own_tenant u r f 0 10 ltac:(discriminate))
                "techcorp" eq_refl ltac:(discriminate))
      as (Ha & He & _).
    split; [exact Ha | exact He].
  - destruct (proj2 (queries_pinned_to_own_tenant v r f 0 10 ltac:(discriminate))
                (or_intror eq_refl))
      as (Ha & He).
    split; [exact Ha|]. rewrite He. reflexivity.
Defined.

(** C1 as stated fails where the guard [&& user.customerId] does not pass: a
    USER whose tenant id is the empty string, or an ADMIN whose tenant id is
    [null], gets an analytics query with no [customerId] at all (all tenants),
    and the events query of the ADMIN carries the form's [customerId], the
    empty string of "All Customers", not a tenant. *)
Lemma tenant_not_forced_without_customerId :
  let u := User "USER" (Some "") in
  let a := User "ADMIN" None in
  let r := Range "2025-03-08" "2025-03-15" in
  let f := Filters "" "" "openai" "" "" in
  (role u ≠ "SUPERADMIN" ∧ role a ≠ "SUPERADMIN")
  ∧ analyticsParams (Some u) r
    = VObj [("startDate", VStr "2025-03-08"); ("endDate", VStr "2025-03-15")]
  ∧ get_opt (analyticsParams (Some u) r) "customerId" = VUndefined
  ∧ get_opt (analyticsParams (Some a) r) "customerId" = VUndefined
  ∧ get_opt (eventsParams (Some a) f 0 10) "customerId" = VStr "".
Proof.
  cbv zeta. split; [split; discriminate|]. repeat split.
Qed.

(** A SUPERADMIN's queries are left as the caller built them. *)
Lemma superadmin_not_scoped (tenant : option string) (params : list (string * value)) :
  scope (Some (User "SUPERADMIN" tenant)) params = params.
Proof. reflexivity. Qed.

End TenantScope.

(* ================================================================== *)
(** * Properties of the query planner: date ranges *)

Section DateRanges.
Import DateFns Planner.

(** Resolve the [switch] on a literal selector. *)
Ltac pick_case :=
  unfold calculateDateRange;
  repeat first [ rewrite bool_decide_eq_true_2 by reflexivity
               | rewrite bool_decide_eq_false_2 by discriminate ];
  cbv beta iota zeta.

Lemma holds_from_sound (check : Z → bool) (k : nat) (lo day : Z) :
  holds_from check k lo = true → lo ≤ day < lo + 2 ^ Z.of_nat k →
  check day = true.
Proof.
  revert lo. induction k as [|k IH]; intros lo Hc Hd.
  - change (2 ^ Z.of_nat 0) with 1 in Hd.
    assert (day = lo) as -> by lia. exact Hc.
  - cbn [holds_from] in Hc. apply andb_prop in Hc as [Hl Hr].
    rewrite Nat2Z.inj_succ, Z.pow_succ_r in Hd by lia.
    destruct (decide (day < lo + 2 ^ Z.of_nat k)).
    + apply (IH lo); [exact Hl | lia].
    + apply (IH (lo + 2 ^ Z.of_nat k)); [exact Hr | lia].
Qed.

(** The two calendar conversions agree on every day from 1 January 1970 on,
    for 2^15 days (into the year 2059). *)
Lemma civil_agrees_from_1970 (day : Z) :
  0 ≤ day < 32768 → civil_agrees day = true.
Proof.
  intros Hd. apply (holds_from_sound civil_agrees 15 0).
  - by vm_compute.
  - change (2 ^ Z.of_nat 15) with 32768. lia.
Qed.

Lemma LocalTime_UTC (h : host) (t : Z) : LocalTime h (UTC h t) = t.
Proof. unfold LocalTime, UTC. lia. Qed.

Lemma TimeWithinDay_range (t : Z) : 0 ≤ TimeWithinDay t < msPerDay.
Proof. unfold TimeWithinDay, msPerDay. apply Z.mod_pos_bound. lia. Qed.

Lemma Day_MakeDate (d time : Z) : 0 ≤ time < msPerDay → Day (MakeDate d time) = d.
Proof.
  intros Ht. unfold Day, MakeDate, msPerDay in *.
  symmetry. apply (Z.div_unique _ _ d time); lia.
Qed.

Lemma format_of_local_day (h : host) (t D : Z) :
  Day (LocalTime h t) = D → format_yyyy_MM_dd h t = formatDay D.
Proof.
  intros HD. unfold formatDay, format_yyyy_MM_dd, getFullYear, getMonth, getDate,
    YearFromTime, MonthFromTime, DateFromTime.
  rewrite HD.
  replace (Day (LocalTime (Host 0 0) (MakeDate D 0))) with D; [done|].
  unfold LocalTime. cbn [tzOffset]. rewrite Z.mul_0_l, Z.add_0_r.
  symmetry. apply Day_MakeDate. unfold msPerDay. lia.
Qed.

Lemma format_setDate (h : host) (t date : Z) :
  format_yyyy_MM_dd h (setDate h t date)
  = formatDay (MakeDay (getFullYear h t) (getMonth h t) date).
Proof.
  apply format_of_local_day. unfold setDate. rewrite LocalTime_UTC.
  apply Day_MakeDate, TimeWithinDay_range.
Qed.

Lemma format_setHours (h : host) (t hour min sec ms : Z) :
  0 ≤ MakeTime hour min sec ms < msPerDay →
  format_yyyy_MM_dd h (setHours h t hour min sec ms) = format_yyyy_MM_dd h t.
Proof.
  intros Hr. rewrite (format_of_local_day h (setHours _ _ _ _ _ _) (Day (LocalTime h t))).
  - symmetry. by apply format_of_local_day.
  - unfold setHours. rewrite LocalTime_UTC. by apply Day_MakeDate.
Qed.

Lemma format_setFullYear (h : host) (t year month date : Z) :
  format_yyyy_MM_dd h (setFullYear h t year month date)
  = formatDay (MakeDay year month date).
Proof.
  apply format_of_local_day. unfold setFullYear. rewrite LocalTime_UTC.
  apply Day_MakeDate, TimeWithinDay_range.
Qed.

Lemma first_ms_in_day : 0 ≤ MakeTime 0 0 0 0 < msPerDay.
Proof. by vm_compute. Qed.

Lemma last_ms_in_day : 0 ≤ MakeTime 23 59 59 999 < msPerDay.
Proof. by vm_compute. Qed.

(** What each selector resolves to, in terms of the local calendar fields of
    the clock. *)
Lemma calculateDateRange_days (h : host) (selector : string) (n : Z) :
  selector = "7days" ∧ n = 7 ∨ selector = "30days" ∧ n = 30 →
  calculateDateRange h selector
  = Range (formatDay (MakeDay (getFullYear h (now h)) (getMonth h (now h))
                              (getDate h (now h) + - n)))
          (format_yyyy_MM_dd h (now h)).
Proof.
  intros [[-> ->]|[-> ->]]; pick_case;
    unfold subDays, addDays; by rewrite format_setDate.
Qed.

Lemma calculateDateRange_thismonth (h : host) :
  calculateDateRange h "thismonth"
  = Range (formatDay (MakeDay (getFullYear h (now h)) (getMonth h (now h)) 1))
          (formatDay (MakeDay (getFullYear h (now h)) (getMonth h (now h) + 1) 0)).
Proof.
  pick_case. unfold startOfMonth, endOfMonth.
  rewrite (format_setHours _ _ _ _ _ _ first_ms_in_day).
  rewrite (format_setHours _ _ _ _ _ _ last_ms_in_day).
  by rewrite format_setDate, format_setFullYear.
Qed.

Lemma calculateDateRange_thisyear (h : host) :
  calculateDateRange h "thisyear"
  = Range (formatDay (MakeDay (getFullYear h (now h)) 0 1))
          (formatDay (MakeDay (getFullYear h (now h) + 1) 0 0)).
Proof.
  pick_case. unfold startOfYear, endOfYear.
  rewrite (format_setHours _ _ _ _ _ _ first_ms_in_day).
  rewrite (format_setHours _ _ _ _ _ _ last_ms_in_day).
  by rewrite !format_setFullYear.
Qed.

Lemma calculateDateRange_alltime (h : host) :
  calculateDateRange h "alltime"
  = Range (format_yyyy_MM_dd h (parseDateOnly 2024 1 1))
          (format_yyyy_MM_dd h (now h)).
Proof. reflexivity. Qed.

(** The floor date prints as written when the zone is at or east of UTC, and
    as the day before when it is west of UTC. *)
Lemma floor_date_east (h : host) :
  0 ≤ tzOffset h < 1440 → format_yyyy_MM_dd h (parseDateOnly 2024 1 1) = "2024-01-01".
Proof.
  intros Htz. rewrite (format_of_local_day h _ 19723); [by vm_compute|].
  unfold Day, LocalTime, msPerDay, msPerMinute.
  change (parseDateOnly 2024 1 1) with 1704067200000.
  symmetry. apply (Z.div_unique _ _ _ (tzOffset h * 60000)); lia.
Qed.

Lemma floor_date_west (h : host) :
  -1440 ≤ tzOffset h < 0 → format_yyyy_MM_dd h (parseDateOnly 2024 1 1) = "2023-12-31".
Proof.
  intros Htz. rewrite (format_of_local_day h _ 19722); [by vm_compute|].
  unfold Day, LocalTime, msPerDay, msPerMinute.
  change (parseDateOnly 2024 1 1) with 1704067200000.
  symmetry. apply (Z.div_unique _ _ _ (86400000 + tzOffset h * 60000)); lia.
Qed.

(** With the clock on 15 March 2025 (local date), whatever the zone and the
    time of day: this-month and last-7-days resolve as the calendar says. *)
Lemma ranges_on_2025_03_15 (h : host) :
  getFullYear h (now h) = 2025 → getMonth h (now h) = 2 → getDate h (now h) = 15 →
  calculateDateRange h "thismonth" = Range "2025-03-01" "2025-03-31"
  ∧ calculateDateRange h "7days" = Range "2025-03-08" "2025-03-15"
  ∧ format_yyyy_MM_dd h (now h) = "2025-03-15".
Proof.
  intros Hy Hm Hd.
  assert (format_yyyy_MM_dd h (now h) = "2025-03-15") as Hnow.
  { unfold format_yyyy_MM_dd. rewrite Hy, Hm, Hd. by vm_compute. }
  split; [|split; [|exact Hnow]].
  - rewrite calculateDateRange_thismonth, Hy, Hm. by vm_compute.
  - rewrite (calculateDateRange_days h "7days" 7) by auto.
    rewrite Hy, Hm, Hd, Hnow. by vm_compute.
Qed.

(** All-time starts on the floor date exactly when the zone is not west of
    UTC. *)
Lemma alltime_on_2025_03_15 (h : host) :
  getFullYear h (now h) = 2025 → getMonth h (now h) = 2 → getDate h (now h) = 15 →
  (0 ≤ tzOffset h < 1440 →
     calculateDateRange h "alltime" = Range "2024-01-01" "2025-03-15")
  ∧ (-1440 ≤ tzOffset h < 0 →
     calculateDateRange h "alltime" = Range "2023-12-31" "2025-03-15").
Proof.
  intros Hy Hm Hd.
  destruct (ranges_on_2025_03_15 h Hy Hm Hd) as (_ & _ & Hnow).
  rewrite calculateDateRange_alltime, Hnow.
  split; intros Htz; [by rewrite floor_date_east | by rewrite floor_date_west].
Qed.

(** C7, at the failing input: noon of 15 March 2025 in a zone five hours west
    of UTC. The clock reads 2025-03-15 and this-month and last-7-days resolve
    as claimed, but all-time starts on 2023-12-31: [new Date('2024-01-01')]
    is midnight UTC, which [format] prints in local time, the evening
    before. *)
Theorem alltime_floor_west_of_utc :
  let h := Host 1742058000000 (-300) in
  format_yyyy_MM_dd h (now h) = "2025-03-15"
  ∧ calculateDateRange h "thismonth" = Range "2025-03-01" "2025-03-31"
  ∧ calculateDateRange h "7days" = Range "2025-03-08" "2025-03-15"
  ∧ calculateDateRange h "alltime" = Range "2023-12-31" "2025-03-15"
  ∧ calculateDateRange h "alltime" ≠ Range "2024-01-01" "2025-03-15".
Proof.
  cbv zeta. repeat split; by vm_compute.
Qed.

(** The same instant on a host in UTC: all three selectors resolve as
    claimed. *)
Lemma ranges_in_utc :
  let h := Host 1742040000000 0 in
  calculateDateRange h "thismonth" = Range "2025-03-01" "2025-03-31"
  ∧ calculateDateRange h "7days" = Range "2025-03-08" "2025-03-15"
  ∧ calculateDateRange h "alltime" = Range "2024-01-01" "2025-03-15".
Proof. cbv zeta. repeat split; by vm_compute. Qed.

(** C10: a selector that is none of the five known ones resolves like
    ['30days'], to the window from thirty days before the clock to the
    clock. *)
Theorem unknown_selector_falls_back_to_30_days :
  ∀ (h : host) (selector : string),
    selector ≠ "7days" → selector ≠ "30days" → selector ≠ "thismonth" →
    selector ≠ "thisyear" → selector ≠ "alltime" →
    calculateDateRange h selector = calculateDateRange h "30days"
    ∧ calculateDateRange h selector
      = Range (format_yyyy_MM_dd h (subDays h (now h) 30))
              (format_yyyy_MM_dd h (now h)).
Proof.
  intros h selector H7 H30 Hm Hy Ha.
  assert (calculateDateRange h selector
          = Range (format_yyyy_MM_dd h (subDays h (now h) 30))
                  (format_yyyy_MM_dd h (now h))) as H.
  { unfold calculateDateRange. by rewrite !bool_decide_eq_false_2. }
  split; [|exact H]. rewrite H. by pick_case.
Qed.

Lemma unknown_selector_falls_back_to_30_days_witness :
  let h := Host 1742040000000 0 in
  calculateDateRange h "90days" = calculateDateRange h "30days"
  ∧ calculateDateRange h "90days" = Range "2025-02-13" "2025-03-15".
Proof.
  intros h.
  destruct (unknown_selector_falls_back_to_30_days h "90days"
              ltac:(discriminate) ltac:(discriminate) ltac:(discriminate)
              ltac:(discriminate) ltac:(discriminate)) as [H1 H2].
  split; [exact H1|]. rewrite H2. vm_compute. reflexivity.
Defined.

End DateRanges.

(* ================================================================== *)
(** * Properties of the normalizer *)


Section NormalizerProperties.
Import Js Normalizer Populated.


(** C5: on the empty payload [{}] both transforms succeed; the six totals
    are 0, every mapping is [{}], every sequence is [[]], the nested objects
    of the Analytics page are [{}], and every field of the view model is
    there. *)
Theorem empty_payload_defaults :
  transformAnalytics (VObj [])
  = Ok (VObj [("summary",
               VObj [("totalEvents", num 0); ("totalTokens", num 0);
                     ("totalCost", num 0); ("totalRevenue", num 0);
                     ("totalProfit", num 0); ("profitMargin", num 0)]);
              ("usageByVendor", VObj []);
              ("usageByModel", VObj []);
              ("usageByApiType", VObj []);
              ("usageByRegion", VObj []);
              ("usageByEndpoint", VObj []);
              ("usageByUserRole", VObj []);
              ("timeSeriesData", VArr []);
              ("topCustomers", VArr []);
              ("growthMetrics", VObj []);
              ("predictions", VObj []);
              ("efficiencyMetrics", VObj []);
              ("seasonality", VObj []);
              ("anomalies", VArr [])])
  ∧ transformDashboard (VObj [])
    = Ok (VObj [("summary",
                 VObj [("totalEvents", num 0); ("totalTokens", num 0);
                       ("totalCost", num 0); ("totalRevenue", num 0);
                       ("totalProfit", num 0); ("profitMargin", num 0)]);
                ("usageByVendor", VObj []);
                ("usageByModel", VObj []);
                ("usageByApiType", VObj []);
                ("timeSeriesData", VArr []);
                ("topCustomers", VArr [])]).
Proof. split; reflexivity. Qed.

(** The nested objects default to [{}], not to objects of zeros: a growth
    figure of the empty payload reads as [undefined]. *)
Lemma empty_payload_growth_undefined :
  (vm ← transformAnalytics (VObj []);
   gm ← get vm "growthMetrics";
   get gm "eventsGrowth") = Ok VUndefined.
Proof. reflexivity. Qed.

(** A field that is there but [null], or a total that is 0, defaults the
    same way. *)
Lemma null_fields_default :
  transformDashboard
    (VObj [("totalEvents", VNull); ("totalCost", num 0);
           ("usageByVendor", VNull); ("timeSeriesData", VNull)])
  = transformDashboard (VObj []).
Proof. reflexivity. Qed.
















(** What does not default: a malformed sequence is a [TypeError], caught by
    the caller. *)
Lemma null_point_throws :
  transformDashboard (VObj [("timeSeriesData", VArr [VNull])])
  = Throw (TypeError "Cannot read properties of null").
Proof. reflexivity. Qed.

End NormalizerProperties.

(* ================================================================== *)
(** * Properties of the category shares *)

Section CategoryShares.
Import SpecFloat Binary64 Charts.

Lemma shr_1_nonneg (mrs : shr_record) : 0 ≤ shr_m mrs → 0 ≤ shr_m (shr_1 mrs).
Proof. destruct mrs as [[|[p|p|]|p] r s]; cbn; lia. Qed.

Lemma iter_pos_shr_1_nonneg (p : positive) (mrs : shr_record) :
  0 ≤ shr_m mrs → 0 ≤ shr_m (iter_pos shr_1 p mrs).
Proof.
  revert mrs. induction p as [p IH|p IH|]; intros mrs H; cbn.
  - apply IH, IH, shr_1_nonneg, H.
  - apply IH, IH, H.
  - apply shr_1_nonneg, H.
Qed.

Lemma shr_fexp_nonneg (m e : Z) (l : location) :
  0 ≤ m → 0 ≤ shr_m (shr_fexp prec emax m e l).1.
Proof.
  intros H. unfold shr_fexp, shr.
  assert (0 ≤ shr_m (shr_record_of_loc m l)) as H0 by (by destruct l as [|[]]).
  destruct (_ - e); cbn; [done| |done]. by apply iter_pos_shr_1_nonneg.
Qed.

(** Rounding keeps the sign it is given and never yields [NaN]. *)
Lemma binary_round_aux_signed (sx : bool) (mx ex : Z) (lx : location) :
  0 ≤ mx → signed sx (binary_round_aux prec emax sx mx ex lx).
Proof.
  intros H. unfold binary_round_aux.
  pose proof (shr_fexp_nonneg mx ex lx H) as H1.
  destruct (shr_fexp prec emax mx ex lx) as [mrs' e']. cbn in H1.
  assert (0 ≤ round_nearest_even (shr_m mrs') (loc_of_shr_record mrs')) as H2.
  { unfold round_nearest_even. destruct (loc_of_shr_record mrs') as [|[]];
      try destruct (Z.even _); lia. }
  pose proof (shr_fexp_nonneg _ e' loc_Exact H2) as H3.
  destruct (shr_fexp prec emax _ e' loc_Exact) as [mrs'' e'']. cbn in H3.
  destruct (shr_m mrs'') as [|m|m]; [constructor| |lia].
  destruct (_ <=? _); constructor.
Qed.

Lemma signed_nonneg (x : number) : signed false x → nonneg x = true.
Proof. by intros []. Qed.

Lemma add_nonneg (acc c : number) :
  nonneg acc = true → is_count c = true → nonneg (add acc c) = true.
Proof.
  destruct acc as [sa|[]| |[] ma ea], c as [sc| | |[] mc ec]; try done.
  - by destruct sa, sc.
  - intros _ _. unfold add, SFadd, binary_normalize. cbn [cond_Zopp].
    match goal with |- context [Z.pos ?a + Z.pos ?b] =>
      change (Z.pos a + Z.pos b) with (Z.pos (a + b)) end.
    unfold binary_round.
    destruct (shl_align _ _ _) as [mz ez].
    apply signed_nonneg, binary_round_aux_signed. lia.
Qed.

Lemma fold_add_nonneg (l : list number) (acc : number) :
  nonneg acc = true → Forall (λ c, is_count c = true) l →
  nonneg (fold_left add l acc) = true.
Proof.
  intros Hacc Hl. revert acc Hacc.
  induction Hl as [|c l Hc _ IH]; intros acc Hacc; [done|].
  cbn. apply IH. by apply add_nonneg.
Qed.

Lemma sumValues_nonneg (counts : list (string * number)) :
  Forall (λ kv, is_count kv.2 = true) counts → nonneg (sumValues counts) = true.
Proof.
  intros H. unfold sumValues. apply fold_add_nonneg; [done|]. by apply Forall_fmap.
Qed.

(** A total that is neither negative nor [NaN] passes the guard [sum > 0]
    exactly when it is not zero. *)
Lemma gt_zero_of_nonneg (x : number) :
  nonneg x = true → gt x zero = negb (strict_eq x zero).
Proof. by destruct x as [|[]| |[]]. Qed.

Lemma zero_total_fails_guard (x : number) :
  strict_eq x zero = true → gt x zero = false.
Proof. by destruct x as [|[]| |[]]. Qed.

Lemma div_nonneg (c sum : number) :
  is_count c = true → nonneg sum = true → strict_eq sum zero = false →
  nonneg (div c sum) = true.
Proof.
  destruct c as [sc| | |[] mc ec], sum as [ss|[]| |[] ms es]; try done.
  intros _ _ _. unfold div, SFdiv. cbn [xorb].
  destruct (SFdiv_core_binary _ _ _ _ _ _) as [[mz ez] lz] eqn:E.
  apply signed_nonneg, binary_round_aux_signed.
  unfold SFdiv_core_binary in E.
  match type of E with
  | (let '(q, r) := Z.div_eucl ?a ?b in _) = _ =>
      pose proof (Z.div_eucl_eq a b ltac:(done)) as Heq;
      pose proof (Z.mod_pos_bound a b ltac:(done)) as Hmod;
      assert (0 ≤ a) as Ha;
      [|unfold Z.modulo in Hmod; destruct (Z.div_eucl a b) as [q r]]
  end.
  - destruct (_ - _ - _); [done| |done]. apply Z.shiftl_nonneg. done.
  - injection E as <- _ _. nia.
Qed.

Lemma mul_hundred_nonneg (x : number) :
  nonneg x = true → nonneg (mul x (of_Z 100)) = true.
Proof.
  destruct x as [s|[]| |[] m e]; try done.
  intros _. apply signed_nonneg. unfold mul, of_Z.
  change (binary_normalize prec emax 100 0 false)
    with (S754_finite false 7036874417766400 (-46)).
  cbn [SFmul xorb]. by apply binary_round_aux_signed.
Qed.

Lemma shareData_zero_total (counts : list (string * number)) :
  gt (sumValues counts) zero = false →
  shareData counts = map (λ kv, (kv.1, zero)) counts.
Proof.
  intros Hs. unfold shareData. rewrite Hs. apply map_ext. by intros [name count].
Qed.

Lemma shareData_positive_total (counts : list (string * number)) :
  gt (sumValues counts) zero = true →
  shareData counts
  = map (λ kv, (kv.1, mul (div kv.2 (sumValues counts)) (of_Z 100))) counts.
Proof.
  intros Hs. unfold shareData. rewrite Hs. apply map_ext. by intros [name count].
Qed.

(** C6, as the page computes it: when the counts add up to zero every share
    is 0; when they do not (counts being finite numbers that are not
    negative), each share is the count divided by the total, then multiplied
    by 100, each of the two steps rounded to binary64; no share is negative or
    [NaN]; {A: 3, B: 1} gives {A: 75, B: 25} and {A: 0, B: 0} gives
    {A: 0, B: 0}. The three charts of the page share the computation. *)
Theorem category_shares :
  ∀ counts : list (string * number),
    let sum := sumValues counts in
    (strict_eq sum zero = true →
       vendorData counts = map (λ kv, (kv.1, zero)) counts)
    ∧ (Forall (λ kv, is_count kv.2 = true) counts → strict_eq sum zero = false →
       vendorData counts
       = map (λ kv, (kv.1, mul (div kv.2 sum) (of_Z 100))) counts)
    ∧ (Forall (λ kv, is_count kv.2 = true) counts →
       Forall (λ kv, nonneg kv.2 = true) (vendorData counts))
    ∧ modelData counts = vendorData counts
    ∧ apiTypeData counts = vendorData counts
    ∧ vendorData [("A", of_Z 3); ("B", of_Z 1)]
      = [("A", of_Z 75); ("B", of_Z 25)]
    ∧ vendorData [("A", of_Z 0); ("B", of_Z 0)]
      = [("A", of_Z 0); ("B", of_Z 0)].
Proof.
  intros counts sum. split; [|split; [|split; [|split; [|split; [|split]]]]].
  - intros Hz. by apply shareData_zero_total, zero_total_fails_guard.
  - intros Hc Hnz. apply shareData_positive_total.
    rewrite (gt_zero_of_nonneg _ (sumValues_nonneg counts Hc)).
    fold sum. by rewrite Hnz.
  - intros Hc. pose proof (sumValues_nonneg counts Hc) as Hs.
    unfold vendorData, shareData. fold sum. fold sum in Hs.
    apply Forall_fmap, Forall_forall. intros [name c] Hin. cbn.
    rewrite (gt_zero_of_nonneg _ Hs).
    destruct (strict_eq sum zero) eqn:Hz; cbn; [done|].
    apply mul_hundred_nonneg, div_nonneg; [|done..].
    rewrite Forall_forall in Hc. by apply (Hc (name, c)).
  - reflexivity.
  - reflexivity.
  - vm_compute. reflexivity.
  - vm_compute. reflexivity.
Qed.

Lemma category_shares_witness :
  let zeros := [("A", of_Z 0); ("B", of_Z 0)] in
  let some := [("A", of_Z 1); ("B", of_Z 2)] in
  vendorData zeros = map (λ kv, (kv.1, zero)) zeros
  ∧ vendorData some
    = map (λ kv, (kv.1, mul (div kv.2 (sumValues some)) (of_Z 100))) some
  ∧ Forall (λ kv, nonneg kv.2 = true) (vendorData some).
Proof.
  intros zeros some. split; [|split].
  - apply (proj1 (category_shares zeros)). reflexivity.
  - apply (proj1 (proj2 (category_shares some))); [|reflexivity].
    repeat constructor.
  - apply (proj1 (proj2 (proj2 (category_shares some)))).
    repeat constructor.
Defined.

(** C6 as stated fails on rounding: for counts {A: 7, B: 93} the total is 100
    and 100 × 7 / 100 is 7, but the page divides first, and 7 / 100 is not a
    binary64 number: the share of A is 7 + 2^-50, printed
    7.000000000000001. It is neither the exact quotient nor what
    [100 * count / sum] would give in the engine. *)
Lemma share_differs_from_exact_quotient :
  let counts := [("A", of_Z 7); ("B", of_Z 93)] in
  let shareA := S754_finite false 7881299347898369 (-50) in
  vendorData counts = [("A", shareA); ("B", of_Z 93)]
  ∧ strict_eq (sumValues counts) zero = false
  ∧ exactShare (of_Z 7) (sumValues counts) = Some (Qc_of_Z 7)
  ∧ toQ shareA = Some (Qc_of_Z 7 + / Qc_of_Z (2 ^ 50))%Qc
  ∧ toQ shareA ≠ exactShare (of_Z 7) (sumValues counts)
  ∧ shareA ≠ of_Z 7
  ∧ div (mul (of_Z 100) (of_Z 7)) (sumValues counts) = of_Z 7.
Proof.
  cbv zeta. split; [vm_compute; reflexivity|]. split; [reflexivity|].
  split; [apply (bool_decide_unpack _); by vm_compute|].
  split; [apply (bool_decide_unpack _); by vm_compute|].
  split; [apply (bool_decide_unpack _); by vm_compute|].
  split; [discriminate|]. vm_compute. reflexivity.
Qed.

End CategoryShares.

(* ================================================================== *)
(** * Properties of the page *)

Section DashboardProperties.
Import Js AccessGate DateFns Planner Dashboard.
Local Open Scope Qc_scope.


Lemma failureMessage_truthy (err : Js.error) : truthy (failureMessage err) = true.
Proof.
  unfold failureMessage, or.
  repeat match goal with
         | |- context [if truthy ?v then _ else _] => destruct (truthy v) eqn:?
         end; done.
Qed.

(** C8: when the analytics request fails, [loadAnalytics] leaves the stored
    view model as it was, stores a message (the server's, else the error's,
    else the fixed text), ends the loading state, and the page renders that
    message. *)
Theorem failed_fetch_keeps_view_model :
  ∀ (h : host) (u : option user)
    (getAnalytics transform : value → result value)
    (st : state) (err : Js.error),
    getAnalytics (analyticsParams u (calculateDateRange h (dateRange st)))
      = Throw err →
    let st' := loadAnalytics h u getAnalytics transform st in
    analyticsData st' = analyticsData st
    ∧ error st' = failureMessage err
    ∧ truthy (error st') = true
    ∧ loading st' = false
    ∧ render st' = ErrorAlert (failureMessage err).
Proof.
  intros h u getAnalytics transform st err Hfail st'.
  assert (st' = State (analyticsData st) false (failureMessage err) (dateRange st)
                      (start (calculateDateRange h (dateRange st)))
                      (end_ (calculateDateRange h (dateRange st)))) as ->.
  { unfold st', loadAnalytics. cbv zeta. rewrite Hfail. reflexivity. }
  unfold render. cbn. rewrite failureMessage_truthy. done.
Qed.

Lemma failed_fetch_keeps_view_model_witness :
  let h := Host 1742040000000 0 in
  let vm := VObj [("summary", VObj [("totalEvents", num 4)])] in
  let st := State (Some vm) false VNull "7days" "2025-03-08" "2025-03-15" in
  let down := λ _ : value, Throw (Error None "Network Error") in
  let st' := loadAnalytics h (Some (User "USER" (Some "techcorp"))) down
                           Normalizer.transformDashboard st in
  analyticsData st' = Some vm ∧ render st' = ErrorAlert (VStr "Network Error").
Proof.
  intros h vm st down st'.
  destruct (failed_fetch_keeps_view_model h (Some (User "USER" (Some "techcorp")))
              down Normalizer.transformDashboard st (Error None "Network Error")
              eq_refl) as (Hd & _ & _ & _ & Hr).
  split; [exact Hd | exact Hr].
Defined.

(** A throw of the transform lands in the same [catch]. *)
Lemma failed_transform_keeps_view_model
    (h : host) (u : option user) (getAnalytics transform : value → result value)
    (st : state) (data : value) (err : Js.error) :
  getAnalytics (analyticsParams u (calculateDateRange h (dateRange st))) = Ok data →
  transform data = Throw err →
  analyticsData (loadAnalytics h u getAnalytics transform st) = analyticsData st
  ∧ error (loadAnalytics h u getAnalytics transform st) = failureMessage err.
Proof.
  intros Hok Hthrow. unfold loadAnalytics. cbv zeta. rewrite Hok. cbn.
  rewrite Hthrow. done.
Qed.

(** A fetch that succeeds replaces the view model. *)
Lemma successful_fetch_replaces_view_model
    (h : host) (u : option user) (getAnalytics transform : value → result value)
    (st : state) (data model : value) :
  getAnalytics (analyticsParams u (calculateDateRange h (dateRange st))) = Ok data →
  transform data = Ok model →
  analyticsData (loadAnalytics h u getAnalytics transform st) = Some model
  ∧ error (loadAnalytics h u getAnalytics transform st) = VNull.
Proof.
  intros Hok Ht. unfold loadAnalytics. cbv zeta. rewrite Hok. cbn.
  rewrite Ht. done.
Qed.

End DashboardProperties.

(* ================================================================== *)
(** * More on the request gateway *)

Section GatewayComposition.
Import Js Gateway.

(** X1: with a token stored, the interceptor replaces whatever
    [Authorization] header the config came with, and running it again
    changes nothing more. *)
Theorem request_interceptor_overrides_and_is_idempotent :
  ∀ (b : browser) (c : config) (t stale : string),
    localStorage b !! "token" = Some t → t ≠ "" →
    headers c !! "Authorization" = Some stale →
    headers (request_fulfilled b c) !! "Authorization" = Some ("Bearer " +:+ t)
    ∧ request_fulfilled b (request_fulfilled b c) = request_fulfilled b c.
Proof.
  intros b c t stale Ht Hne _. unfold request_fulfilled.
  rewrite Ht, truthy_str_Some by done. cbn. split.
  - apply lookup_insert_eq.
  - by rewrite insert_insert_eq.
Qed.

Lemma request_interceptor_overrides_and_is_idempotent_witness :
  let b := Browser {["token" := "new"]} "/" in
  let c := Config "/api/events" VUndefined {["Authorization" := "Bearer old"]} in
  headers (request_fulfilled b c) !! "Authorization" = Some "Bearer new"
  ∧ request_fulfilled b (request_fulfilled b c) = request_fulfilled b c.
Proof.
  intros b c.
  exact (request_interceptor_overrides_and_is_idempotent b c "new" "Bearer old"
           eq_refl ltac:(discriminate) eq_refl).
Defined.

(** X2: with no token stored the interceptor never removes a header: a
    config that already carries [Authorization] leaves with it. *)
Theorem request_interceptor_keeps_preset_header :
  ∀ (b : browser) (c : config) (preset : string),
    truthy_str (localStorage b !! "token") = false →
    headers c !! "Authorization" = Some preset →
    headers (request_fulfilled b c) !! "Authorization" = Some preset.
Proof.
  intros b c preset Hn Hp. unfold request_fulfilled. by rewrite Hn.
Qed.

Lemma request_interceptor_keeps_preset_header_witness :
  headers (request_fulfilled (Browser ∅ "/login")
             (Config "/api/auth/me" VUndefined {["Authorization" := "Bearer old"]}))
    !! "Authorization" = Some "Bearer old".
Proof.
  exact (request_interceptor_keeps_preset_header (Browser ∅ "/login")
           (Config "/api/auth/me" VUndefined {["Authorization" := "Bearer old"]})
           "Bearer old" eq_refl eq_refl).
Defined.

(** X3: after a 401 has been handled, the next call through [api] leaves
    without an [Authorization] header, whatever storage held before; and a
    second 401 changes nothing more. *)
Theorem no_credential_after_401 :
  ∀ (b : browser) (e e' : error) (r r' : response) (u : string) (p : value),
    err_response e = Some r → status r = 401 →
    err_response e' = Some r' → status r' = 401 →
    let b' := (response_rejected b e).1 in
    request_fulfilled b' (apiConfig u p) = apiConfig u p
    ∧ headers (request_fulfilled b' (apiConfig u p)) !! "Authorization" = None
    ∧ (response_rejected b' e').1 = b'.
Proof.
  intros b e e' r r' u p He Hs He' Hs' b'.
  assert (b' = Browser (delete "user" (delete "token" (localStorage b))) "/login")
    as Hb'.
  { unfold b', response_rejected. by rewrite (is_401_true e r He Hs). }
  assert (localStorage b' !! "token" = None) as Hnone.
  { rewrite Hb'. cbn. rewrite lookup_delete_ne by done. apply lookup_delete_eq. }
  assert (request_fulfilled b' (apiConfig u p) = apiConfig u p) as Hreq.
  { unfold request_fulfilled. by rewrite Hnone. }
  split; [exact Hreq|]. split; [by rewrite Hreq|].
  unfold response_rejected. rewrite (is_401_true e' r' He' Hs'). cbn.
  rewrite Hb'. cbn. f_equal.
  rewrite (delete_id (delete "user" _) "token").
  - apply delete_id. apply lookup_delete_eq.
  - rewrite lookup_delete_ne by done. apply lookup_delete_eq.
Qed.

Lemma no_credential_after_401_witness :
  let b := Browser {["token" := "abc"; "user" := "{}"]} "/events" in
  let e := Error (Some (Response 401 VNull)) "Request failed with status code 401" in
  headers (request_fulfilled (response_rejected b e).1
             (apiConfig "/api/events" VUndefined)) !! "Authorization" = None.
Proof.
  intros b e.
  exact (proj1 (proj2 (no_credential_after_401 b e e (Response 401 VNull)
                         (Response 401 VNull) "/api/events" VUndefined
                         eq_refl eq_refl eq_refl eq_refl))).
Defined.

End GatewayComposition.

(* ================================================================== *)
(** * More on the access gate, the routes and the header *)

Section Navigation.
Import AccessGate App Header.

Lemma role_is_not_negb (u : option user) (r : string) :
  role_is_not u r = negb (role_is u r).
Proof. by destruct u. Qed.

(** X4: the gate's whole decision. It shows the spinner exactly while
    loading; it renders the page exactly when loading is over, the visitor is
    authenticated, an admin route finds role ADMIN or SUPERADMIN and a
    superadmin route finds role SUPERADMIN; it sends to [/login] exactly when
    loading is over and the visitor is not authenticated; in every remaining
    case it sends to [/]. A missing user or an unknown role counts as no
    role. *)
Theorem protected_route_characterised :
  ∀ (A : Type) (a : auth) (location : string) (ra rs : bool) (children : A),
    let out := ProtectedRoute a location ra rs children in
    let admitted :=
      isLoading a = false ∧ isAuthenticated a = true
      ∧ (ra = true → role_is (current a) "ADMIN" = true
                     ∨ role_is (current a) "SUPERADMIN" = true)
      ∧ (rs = true → role_is (current a) "SUPERADMIN" = true) in
    (out = Spinner ↔ isLoading a = true)
    ∧ (out = Children children ↔ admitted)
    ∧ (out = Navigate "/login" (Some location) true
       ↔ isLoading a = false ∧ isAuthenticated a = false)
    ∧ (out = Navigate "/" None true
       ↔ isLoading a = false ∧ isAuthenticated a = true ∧ ¬ admitted).
Proof.
  intros A [authd load u] location ra rs children. cbv zeta.
  unfold ProtectedRoute. cbn [isLoading isAuthenticated current].
  rewrite !role_is_not_negb.
  destruct load, authd, ra, rs,
    (role_is u "ADMIN"), (role_is u "SUPERADMIN"); cbn;
    repeat split; try done; try (intuition congruence).
Qed.

(** X5: on a layout at or above the [md] breakpoint, the header of a
    signed-in user has a button for a protected route exactly when the gate
    lets that user onto the route; below the breakpoint it has no navigation
    button at all. *)
Theorem header_shows_exactly_the_admitted_routes :
  ∀ (A : Type) (isMobile : bool) (u : option user) (location : string)
    (children : A) (r : route),
    r ∈ protectedRoutes →
    (path r ∈ buttonPaths (toolbar isMobile u)
     ↔ isMobile = false
       ∧ ProtectedRoute (Auth true false u) location
                        (requireAdmin r) (requireSuperAdmin r) children
         = Children children).
Proof.
  intros A isMobile u location children r Hr.
  destruct isMobile; cbn [toolbar buttonPaths].
  { split; [intros H; by apply elem_of_nil in H | by intros [? _]]. }
  unfold protectedRoutes in Hr. unfold navItems, ProtectedRoute.
  cbn [isLoading isAuthenticated current negb].
  rewrite !role_is_not_negb.
  repeat (apply elem_of_cons in Hr as [->|Hr]); [..|by apply elem_of_nil in Hr];
    cbn [path requireAdmin requireSuperAdmin];
    destruct (role_is u "ADMIN"), (role_is u "SUPERADMIN"); cbn;
    (split; [intros H; split; [done|] | intros [_ H]]);
    try done; try (by repeat constructor);
    repeat (apply elem_of_cons in H as [H|H]; [discriminate H|]);
    by apply elem_of_nil in H.
Qed.

Lemma header_shows_exactly_the_admitted_routes_witness :
  let u := Some (User "ADMIN" (Some "techcorp")) in
  "/users" ∈ buttonPaths (toolbar false u)
  ∧ "/customers" ∉ buttonPaths (toolbar false u)
  ∧ "/users" ∉ buttonPaths (toolbar true u).
Proof.
  intros u. split; [|split].
  - apply (header_shows_exactly_the_admitted_routes unit false u "/users" tt
             (Route "/users" true false)); [|split; reflexivity].
    repeat constructor.
  - intros H.
    apply (header_shows_exactly_the_admitted_routes unit false u "/customers" tt
             (Route "/customers" false true)) in H; [by destruct H as [_ H]|].
    repeat constructor.
  - intros H.
    apply (header_shows_exactly_the_admitted_routes unit true u "/users" tt
             (Route "/users" true false)) in H; [by destruct H as [H _]|].
    repeat constructor.
Defined.

End Navigation.

Section NavigationExamples.
Import AccessGate App Header.

Lemma protected_route_characterised_witness :
  ProtectedRoute (Auth true false (Some (User "USER" (Some "techcorp")))) "/users"
                 true false tt
  = Navigate "/" None true.
Proof.
  apply (proj2 (proj2 (proj2 (protected_route_characterised unit
           (Auth true false (Some (User "USER" (Some "techcorp")))) "/users"
           true false tt)))).
  split; [reflexivity|]. split; [reflexivity|].
  intros (_ & _ & H & _). destruct (H eq_refl) as [H'|H']; discriminate H'.
Defined.

End NavigationExamples.

(* ================================================================== *)
(** * The calendar: [civil] and [MakeDay] are inverse to each other *)

Section Calendar.
Import DateFns Checks.

Lemma InLeapYear_spec (y : Z) :
  InLeapYear y = true ∧ y mod 4 = 0 ∧ (y mod 100 ≠ 0 ∨ y mod 400 = 0)
  ∨ InLeapYear y = false ∧ (y mod 4 ≠ 0 ∨ y mod 100 = 0 ∧ y mod 400 ≠ 0).
Proof.
  unfold InLeapYear.
  destruct (decide (y mod 4 = 0)) as [H4|H4], (decide (y mod 100 = 0)) as [H100|H100],
    (decide (y mod 400 = 0)) as [H400|H400];
    rewrite ?(bool_decide_eq_true_2 _ H4), ?(bool_decide_eq_false_2 _ H4),
      ?(bool_decide_eq_true_2 _ H100), ?(bool_decide_eq_false_2 _ H100),
      ?(bool_decide_eq_true_2 _ H400), ?(bool_decide_eq_false_2 _ H400); cbn;
    first [ left; repeat split; auto; fail | right; repeat split; auto; fail
          | left; split; [reflexivity|]; split; [done|]; lia
          | right; split; [reflexivity|]; lia ].
Qed.

Lemma monthStart_table (leap : bool) (m : Z) :
  0 ≤ m ≤ 11 →
  let l := if leap then 1 else 0 in
  (m = 0 ∧ monthStart leap m = 0) ∨ (m = 1 ∧ monthStart leap m = 31)
  ∨ (m = 2 ∧ monthStart leap m = 59 + l) ∨ (m = 3 ∧ monthStart leap m = 90 + l)
  ∨ (m = 4 ∧ monthStart leap m = 120 + l) ∨ (m = 5 ∧ monthStart leap m = 151 + l)
  ∨ (m = 6 ∧ monthStart leap m = 181 + l) ∨ (m = 7 ∧ monthStart leap m = 212 + l)
  ∨ (m = 8 ∧ monthStart leap m = 243 + l) ∨ (m = 9 ∧ monthStart leap m = 273 + l)
  ∨ (m = 10 ∧ monthStart leap m = 304 + l) ∨ (m = 11 ∧ monthStart leap m = 334 + l).
Proof.
  intros Hm l.
  assert (m = 0 ∨ m = 1 ∨ m = 2 ∨ m = 3 ∨ m = 4 ∨ m = 5 ∨ m = 6 ∨ m = 7 ∨ m = 8
          ∨ m = 9 ∨ m = 10 ∨ m = 11) as H by lia.
  destruct H as [->|[->|[->|[->|[->|[->|[->|[->|[->|[->|[->| ->]]]]]]]]]]];
    tauto.
Qed.

Lemma MakeDay_civil_all (D : Z) :
  MakeDay (civil D).1.1 (civil D).1.2 (civil D).2 = D.
Proof.
  unfold civil. cbv zeta. cbn [fst snd].
  set (z := D + 719468).
  set (era := z / 146097).
  set (doe := z - era * 146097).
  set (yoe := (doe - doe / 1460 + doe / 36524 - doe / 146096) / 365).
  set (doy := doe - (365 * yoe + yoe / 4 - yoe / 100)).
  set (mp := (5 * doy + 2) / 153).
  set (m := if mp <? 10 then mp + 3 else mp - 9).
  set (c := if m <=? 2 then 1 else 0).
  assert (0 ≤ doe ≤ 146096) as Hdoe
    by (subst doe era; Z.to_euclidean_division_equations; lia).
  assert (0 ≤ yoe ≤ 399 ∧ 0 ≤ doy ≤ 365) as [Hyoe Hdoy].
  { subst doy yoe. clearbody doe. clear -Hdoe. Z.to_euclidean_division_equations. lia. }
  assert (0 ≤ mp ≤ 11) as Hmp
    by (subst mp; clearbody doy; Z.to_euclidean_division_equations; lia).
  assert (mp < 10 ∧ m = mp + 3 ∨ 10 ≤ mp ∧ m = mp - 9) as Hm
    by (subst m; destruct (Z.ltb_spec mp 10); lia).
  assert (m ≤ 2 ∧ c = 1 ∨ 2 < m ∧ c = 0) as Hc
    by (subst c; destruct (Z.leb_spec m 2); lia).
  assert (doy = doe - (365 * yoe + yoe / 4 - yoe / 100)) as Edoy by reflexivity.
  assert (D = era * 146097 + doe - 719468) as ED by (subst doe z; lia).
  assert (mp = (5 * doy + 2) / 153) as Emp by reflexivity.
  clearbody c m mp doy yoe doe era. clear z.
  unfold MakeDay.
  replace ((m - 1) / 12) with 0 by (Z.to_euclidean_division_equations; lia).
  replace ((m - 1) mod 12) with (m - 1) by (Z.to_euclidean_division_equations; lia).
  rewrite Z.add_0_r.
  pose proof (monthStart_table (InLeapYear (yoe + era * 400 + c)) (m - 1)
                ltac:(lia)) as Ht.
  cbv zeta in Ht.
  destruct (InLeapYear_spec (yoe + era * 400 + c)) as [(Hleap & Hl) | (Hleap & Hl)];
    rewrite Hleap in *; unfold DayFromYear;
    [ generalize dependent (monthStart true (m - 1))
    | generalize dependent (monthStart false (m - 1)) ];
    intros ms Ht; cbv iota in Ht.
  all: Z.to_euclidean_division_equations; lia.
Qed.


Lemma firstOfMonth_eq (y m : Z) :
  0 ≤ m ≤ 11 → firstOfMonth y m = DayFromYear y + monthStart (InLeapYear y) m.
Proof.
  intros Hm. unfold firstOfMonth, MakeDay.
  replace (m / 12) with 0 by (Z.to_euclidean_division_equations; lia).
  replace (m mod 12) with m by (Z.to_euclidean_division_equations; lia).
  rewrite Z.add_0_r. lia.
Qed.

Lemma firstOfMonth_12 (y : Z) : firstOfMonth y 12 = DayFromYear (y + 1).
Proof. unfold firstOfMonth, MakeDay. change (12 / 12) with 1. change (12 mod 12) with 0.
  cbn [monthStart]. destruct (InLeapYear (y + 1)); lia. Qed.

Lemma DayFromYear_next (y : Z) :
  DayFromYear (y + 1) = DayFromYear y + 365 + (if InLeapYear y then 1 else 0).
Proof.
  destruct (InLeapYear_spec y) as [(-> & Hl) | (-> & Hl)]; unfold DayFromYear;
    Z.to_euclidean_division_equations; lia.
Qed.

Lemma DayFromYear_mono (y y' : Z) : y < y' → DayFromYear y + 365 ≤ DayFromYear y'.
Proof. intros H. unfold DayFromYear. Z.to_euclidean_division_equations. lia. Qed.

(** Month [m] of year [y] takes the days from its first up to the first of
    the next month, at least 28 of them, within the year. *)
Lemma month_bounds (y m : Z) :
  0 ≤ m ≤ 11 →
  DayFromYear y ≤ firstOfMonth y m
  ∧ firstOfMonth y m + 28 ≤ firstOfMonth y (m + 1)
  ∧ firstOfMonth y (m + 1) ≤ DayFromYear (y + 1).
Proof.
  intros Hm.
  assert (m = 11 ∨ 0 ≤ m + 1 ≤ 11) as [->|Hm1] by lia.
  - change (11 + 1) with 12. rewrite firstOfMonth_12, firstOfMonth_eq by lia.
    rewrite DayFromYear_next. cbn [monthStart]. destruct (InLeapYear y); lia.
  - rewrite !firstOfMonth_eq by lia. rewrite DayFromYear_next.
    pose proof (monthStart_table (InLeapYear y) m Hm) as Ht.
    pose proof (monthStart_table (InLeapYear y) (m + 1) Hm1) as Ht'.
    cbv zeta in Ht, Ht'.
    generalize dependent (monthStart (InLeapYear y) (m + 1)).
    generalize dependent (monthStart (InLeapYear y) m).
    destruct (InLeapYear y); intros; lia.
Qed.

Lemma month_unique (y m y' m' D : Z) :
  0 ≤ m ≤ 11 → 0 ≤ m' ≤ 11 →
  firstOfMonth y m ≤ D < firstOfMonth y (m + 1) →
  firstOfMonth y' m' ≤ D < firstOfMonth y' (m' + 1) →
  y = y' ∧ m = m'.
Proof.
  intros Hm Hm' HD HD'.
  pose proof (month_bounds y m Hm) as (B1 & B2 & B3).
  pose proof (month_bounds y' m' Hm') as (B1' & B2' & B3').
  assert (y = y') as <-.
  { destruct (Z.lt_trichotomy y y') as [Hlt|[Heq|Hgt]]; [|done|].
    - pose proof (DayFromYear_mono y y' Hlt).
      assert (y + 1 = y' ∨ y + 1 < y') as [<-|H2] by lia; [lia|].
      pose proof (DayFromYear_mono (y + 1) y' H2). lia.
    - pose proof (DayFromYear_mono y' y Hgt).
      assert (y' + 1 = y ∨ y' + 1 < y) as [<-|H2] by lia; [lia|].
      pose proof (DayFromYear_mono (y' + 1) y H2). lia. }
  split; [done|].
  assert (∀ a b, 0 ≤ a ≤ 11 → 0 ≤ b ≤ 11 → a < b →
                 firstOfMonth y (a + 1) ≤ firstOfMonth y b) as Hmono.
  { intros a b Ha Hb Hab. rewrite !firstOfMonth_eq by lia.
    pose proof (monthStart_table (InLeapYear y) (a + 1) ltac:(lia)) as Ht.
    pose proof (monthStart_table (InLeapYear y) b Hb) as Ht'.
    cbv zeta in Ht, Ht'.
    generalize dependent (monthStart (InLeapYear y) (a + 1)).
    generalize dependent (monthStart (InLeapYear y) b).
    destruct (InLeapYear y); intros; lia. }
  destruct (Z.lt_trichotomy m m') as [Hlt|[Heq|Hgt]]; [|done|].
  - pose proof (Hmono m m' Hm Hm' Hlt). lia.
  - pose proof (Hmono m' m Hm' Hm Hgt). lia.
Qed.

Lemma civil_month_range (D : Z) : 0 ≤ (civil D).1.2 ≤ 11.
Proof.
  unfold civil. cbv zeta. cbn [fst snd].
  set (z := D + 719468).
  set (era := z / 146097).
  set (doe := z - era * 146097).
  set (yoe := (doe - doe / 1460 + doe / 36524 - doe / 146096) / 365).
  set (doy := doe - (365 * yoe + yoe / 4 - yoe / 100)).
  set (mp := (5 * doy + 2) / 153).
  assert (0 ≤ doe ≤ 146096) as Hdoe
    by (subst doe era; Z.to_euclidean_division_equations; lia).
  assert (0 ≤ yoe ≤ 399 ∧ 0 ≤ doy ≤ 365) as [Hyoe Hdoy].
  { subst doy yoe. clearbody doe. clear -Hdoe. Z.to_euclidean_division_equations. lia. }
  assert (0 ≤ mp ≤ 11) as Hmp
    by (subst mp; clearbody doy; Z.to_euclidean_division_equations; lia).
  clearbody mp. destruct (Z.ltb_spec mp 10); lia.
Qed.

Lemma civil_in_month (D : Z) :
  firstOfMonth (civil D).1.1 (civil D).1.2 ≤ D
  < firstOfMonth (civil D).1.1 ((civil D).1.2 + 1).
Proof.
  unfold civil. cbv zeta. cbn [fst snd].
  set (z := D + 719468).
  set (era := z / 146097).
  set (doe := z - era * 146097).
  set (yoe := (doe - doe / 1460 + doe / 36524 - doe / 146096) / 365).
  set (doy := doe - (365 * yoe + yoe / 4 - yoe / 100)).
  set (mp := (5 * doy + 2) / 153).
  set (m := if mp <? 10 then mp + 3 else mp - 9).
  set (c := if m <=? 2 then 1 else 0).
  assert (0 ≤ doe ≤ 146096) as Hdoe
    by (subst doe era; Z.to_euclidean_division_equations; lia).
  assert (0 ≤ yoe ≤ 399 ∧ 0 ≤ doy ≤ 365) as [Hyoe Hdoy].
  { subst doy yoe. clearbody doe. clear -Hdoe. Z.to_euclidean_division_equations. lia. }
  assert (doy = 365 → (yoe + 1) mod 4 = 0
                      ∧ ((yoe + 1) mod 100 ≠ 0 ∨ (yoe + 1) mod 400 = 0)) as Hleapday.
  { subst doy yoe. clearbody doe. clear -Hdoe. Z.to_euclidean_division_equations. lia. }
  assert (0 ≤ mp ≤ 11) as Hmp
    by (subst mp; clearbody doy; Z.to_euclidean_division_equations; lia).
  assert (mp < 10 ∧ m = mp + 3 ∨ 10 ≤ mp ∧ m = mp - 9) as Hm
    by (subst m; destruct (Z.ltb_spec mp 10); lia).
  assert (m ≤ 2 ∧ c = 1 ∨ 2 < m ∧ c = 0) as Hc
    by (subst c; destruct (Z.leb_spec m 2); lia).
  assert (doy = doe - (365 * yoe + yoe / 4 - yoe / 100)) as Edoy by reflexivity.
  assert (D = era * 146097 + doe - 719468) as ED by (subst doe z; lia).
  assert (mp = (5 * doy + 2) / 153) as Emp by reflexivity.
  clearbody c m mp doy yoe doe era. clear z.
  set (y := yoe + era * 400 + c) in *.
  assert (firstOfMonth y (m - 1 + 1)
          = if bool_decide (m = 12) then DayFromYear y + 365 + (if InLeapYear y then 1 else 0)
            else DayFromYear y + monthStart (InLeapYear y) m) as ->.
  { case_bool_decide as H12.
    - subst m. change (12 - 1 + 1) with 12. by rewrite firstOfMonth_12, DayFromYear_next.
    - replace (m - 1 + 1) with m by lia. apply firstOfMonth_eq. lia. }
  rewrite firstOfMonth_eq by lia.
  assert (m = 1 ∨ m = 2 ∨ m = 3 ∨ m = 4 ∨ m = 5 ∨ m = 6 ∨ m = 7 ∨ m = 8
          ∨ m = 9 ∨ m = 10 ∨ m = 11 ∨ m = 12) as Hcases by lia.
  destruct (InLeapYear_spec y) as [(Hleap & Hl) | (Hleap & Hl)]; rewrite Hleap;
    subst y; unfold DayFromYear.
  all: destruct Hcases as [->|[->|[->|[->|[->|[->|[->|[->|[->|[->|[->| ->]]]]]]]]]]].
  all: rewrite ?bool_decide_eq_false_2 by lia; rewrite ?bool_decide_eq_true_2 by lia;
       cbv iota;
       try match goal with
           | |- context [monthStart _ (?a - 1)] =>
               let v := eval cbv in (a - 1) in change (a - 1) with v
           end;
       cbn [monthStart].
  all: Z.to_euclidean_division_equations; lia.
Qed.

Lemma MakeDay_first (y m d : Z) : MakeDay y m d = firstOfMonth y m + (d - 1).
Proof. unfold firstOfMonth, MakeDay. lia. Qed.

Lemma civil_MakeDay (y m d : Z) :
  0 ≤ m ≤ 11 → 1 ≤ d → MakeDay y m d < firstOfMonth y (m + 1) →
  civil (MakeDay y m d) = (y, m, d).
Proof.
  intros Hm Hd Hlen. set (S := MakeDay y m d) in *.
  pose proof (civil_in_month S) as Hin.
  pose proof (civil_month_range S) as Hr.
  pose proof (MakeDay_civil_all S) as Hrt.
  destruct (civil S) as [[y' m'] d']. cbn [fst snd] in *.
  assert (firstOfMonth y m ≤ S) as Hlo by (unfold S; rewrite MakeDay_first; lia).
  destruct (month_unique y' m' y m S Hr Hm Hin (conj Hlo Hlen)) as [-> ->].
  unfold S in Hrt. rewrite !MakeDay_first in Hrt.
  by replace d' with d by lia.
Qed.

Lemma civil_first (y m : Z) : 0 ≤ m ≤ 11 → civil (firstOfMonth y m) = (y, m, 1).
Proof.
  intros Hm. apply (civil_MakeDay y m 1 Hm); [lia|].
  pose proof (month_bounds y m Hm). unfold firstOfMonth in *. lia.
Qed.

Lemma firstOfMonth_carry (y : Z) : firstOfMonth y 12 = firstOfMonth (y + 1) 0.
Proof. by rewrite firstOfMonth_12, firstOfMonth_eq, Z.add_0_r by lia. Qed.

Lemma civil_last (y m : Z) :
  0 ≤ m ≤ 11 →
  (civil (MakeDay y (m + 1) 0)).1 = (y, m)
  ∧ (civil (MakeDay y (m + 1) 0 + 1)).2 = 1.
Proof.
  intros Hm. pose proof (month_bounds y m Hm) as (_ & B & _).
  rewrite (MakeDay_first y (m + 1) 0). split.
  - replace (firstOfMonth y (m + 1) + (0 - 1))
      with (MakeDay y m (firstOfMonth y (m + 1) - firstOfMonth y m))
      by (rewrite MakeDay_first; lia).
    rewrite civil_MakeDay; [done|done|lia|rewrite MakeDay_first; lia].
  - replace (firstOfMonth y (m + 1) + (0 - 1) + 1) with (firstOfMonth y (m + 1)) by lia.
    assert (m = 11 ∨ 0 ≤ m + 1 ≤ 11) as [->|Hm1] by lia.
    + change (11 + 1) with 12. rewrite firstOfMonth_carry. by rewrite civil_first.
    + by rewrite civil_first.
Qed.

End Calendar.

(* ================================================================== *)
(** * More on the date ranges *)

Section DateWindows.
Import DateFns Planner Checks.

Lemma MakeDay_shift (y m d k : Z) : MakeDay y m (d + k) = MakeDay y m d + k.
Proof. unfold MakeDay. lia. Qed.

Lemma bothEqual_spec (a b a' b' : string) :
  bothEqual a b a' b' = true → a = a' ∧ b = b'.
Proof.
  unfold bothEqual. intros H. apply andb_prop in H as [H1 H2].
  by apply bool_decide_eq_true_1 in H1, H2.
Qed.

Lemma format_now (h : host) :
  format_yyyy_MM_dd h (now h) = formatDay (Day (LocalTime h (now h))).
Proof. by apply format_of_local_day. Qed.

(** X6: last-7-days and last-30-days end on the clock's local date and start
    exactly 7, respectively 30, calendar days before it, across month and
    year ends; the time of day and the zone play no part. *)
Theorem last_days_window_is_exact :
  ∀ (h : host) (selector : string) (n : Z),
    selector = "7days" ∧ n = 7 ∨ selector = "30days" ∧ n = 30 →
    calculateDateRange h selector
    = Range (formatDay (Day (LocalTime h (now h)) - n))
            (formatDay (Day (LocalTime h (now h)))).
Proof.
  intros h selector n Hsel.
  rewrite (calculateDateRange_days h selector n Hsel), format_now.
  unfold getFullYear, getMonth, getDate, YearFromTime, MonthFromTime, DateFromTime.
  rewrite MakeDay_shift, MakeDay_civil_all. reflexivity.
Qed.

Lemma last_days_window_is_exact_witness :
  (* 3 January 2025, 23:30 in a zone two hours east of UTC *)
  calculateDateRange (Host 1735939800000 120) "7days"
  = Range "2024-12-27" "2025-01-03".
Proof.
  rewrite (last_days_window_is_exact (Host 1735939800000 120) "7days" 7).
  - vm_compute. reflexivity.
  - left. split; reflexivity.
Defined.

(** X7: this-month starts on the first day of the clock's local month and
    ends on its last day (a day of the same month whose next day is a first
    of a month), and the clock's date lies within; for every clock and
    zone. *)
Theorem this_month_window_is_the_calendar_month :
  ∀ h : host,
    ∃ s e : Z,
      calculateDateRange h "thismonth" = Range (formatDay s) (formatDay e)
      ∧ s ≤ Day (LocalTime h (now h)) ≤ e
      ∧ civil s = (getFullYear h (now h), getMonth h (now h), 1)
      ∧ (civil e).1 = (getFullYear h (now h), getMonth h (now h))
      ∧ (civil (e + 1)).2 = 1.
Proof.
  intros h.
  exists (MakeDay (getFullYear h (now h)) (getMonth h (now h)) 1),
         (MakeDay (getFullYear h (now h)) (getMonth h (now h) + 1) 0).
  split; [apply calculateDateRange_thismonth|].
  unfold getFullYear, getMonth, YearFromTime, MonthFromTime.
  pose proof (civil_in_month (Day (LocalTime h (now h)))) as Hin.
  pose proof (civil_month_range (Day (LocalTime h (now h)))) as Hm.
  generalize dependent (civil (Day (LocalTime h (now h)))). intros c Hin Hm.
  destruct (civil_last c.1.1 c.1.2 Hm) as [He Hn].
  split; [|split; [exact (civil_first c.1.1 c.1.2 Hm) | split; [exact He | exact Hn]]].
  rewrite (MakeDay_first c.1.1 (c.1.2 + 1) 0). unfold firstOfMonth in *. lia.
Qed.

(** X8: this-year runs from 1 January to 31 December of the clock's local
    year. (Years 1970 to 2097.) *)
Theorem this_year_window_is_the_calendar_year :
  ∀ h : host,
    1970 ≤ getFullYear h (now h) < 2098 →
    calculateDateRange h "thisyear"
    = Range (pretty (getFullYear h (now h)) +:+ "-01-01")
            (pretty (getFullYear h (now h)) +:+ "-12-31").
Proof.
  intros h Hy. rewrite calculateDateRange_thisyear.
  generalize dependent (getFullYear h (now h)). intros y Hy.
  destruct (bothEqual_spec (formatDay (MakeDay y 0 1))
              (formatDay (MakeDay (y + 1) 0 0))
              (pretty y +:+ "-01-01") (pretty y +:+ "-12-31")) as [-> ->];
    [|reflexivity].
  assert (holds_from
            (λ y, bothEqual (formatDay (MakeDay y 0 1))
                            (formatDay (MakeDay (y + 1) 0 0))
                            (pretty y +:+ "-01-01") (pretty y +:+ "-12-31"))
            7 1970 = true) as Hall by (vm_compute; reflexivity).
  refine (holds_from_sound _ 7 1970 y Hall _).
  change (2 ^ Z.of_nat 7) with 128. lia.
Qed.

Lemma this_year_window_is_the_calendar_year_witness :
  calculateDateRange (Host 1709208000000 0) "thisyear"
  = Range "2024-01-01" "2024-12-31".
Proof.
  rewrite (this_year_window_is_the_calendar_year (Host 1709208000000 0)).
  - vm_compute. reflexivity.
  - vm_compute. split; [discriminate | reflexivity].
Defined.

End DateWindows.

(* ================================================================== *)
(** * More on the queries *)

Section Queries.
Import Js AccessGate Planner.

Lemma scope_other_keys (u : option user) (params : list (string * value)) (k : string) :
  k ≠ "customerId" → assoc k (scope u params) = assoc k params.
Proof.
  intros Hk. unfold scope. destruct (scopedTenant u); [|done].
  by apply assoc_set_entry_ne.
Qed.

(** X10: whoever is signed in, the events query carries the user id, vendor,
    model and API type of the filter form and the page and page size as
    given; the tenant guard touches [customerId] only. *)
Theorem events_query_carries_filters_and_paging :
  ∀ (u : option user) (f : filters) (page rowsPerPage : Z),
    let q := eventsParams u f page rowsPerPage in
    get_opt q "userId" = VStr (f_userId f)
    ∧ get_opt q "vendor" = VStr (f_vendor f)
    ∧ get_opt q "model" = VStr (f_model f)
    ∧ get_opt q "apiType" = VStr (f_apiType f)
    ∧ get_opt q "page" = num page
    ∧ get_opt q "size" = num rowsPerPage.
Proof.
  intros u f page rows. cbv zeta. unfold eventsParams, get_opt.
  rewrite !scope_other_keys by done. repeat split.
Qed.

(** X11: for a SUPERADMIN, and when no user is signed in, nothing is forced:
    the analytics query holds the two dates and no [customerId], and the
    events query carries the [customerId] of the filter form as it is. *)
Theorem superadmin_queries_are_unscoped :
  ∀ (u : option user) (r : range) (f : filters) (page rowsPerPage : Z),
    u = None ∨ (∃ usr, u = Some usr ∧ role usr = "SUPERADMIN") →
    analyticsParams u r
    = VObj [("startDate", VStr (start r)); ("endDate", VStr (end_ r))]
    ∧ get_opt (eventsParams u f page rowsPerPage) "customerId"
      = VStr (f_customerId f).
Proof.
  intros u r f page rows Hu.
  assert (scopedTenant u = None) as Hs.
  { destruct Hu as [->|(usr & -> & Hr)]; [done|].
    unfold scopedTenant. by rewrite bool_decide_eq_true_2. }
  unfold analyticsParams, eventsParams, scope. rewrite Hs. done.
Qed.

Lemma superadmin_queries_are_unscoped_witness :
  let u := Some (User "SUPERADMIN" None) in
  analyticsParams u (Range "2025-03-08" "2025-03-15")
  = VObj [("startDate", VStr "2025-03-08"); ("endDate", VStr "2025-03-15")]
  ∧ get_opt (eventsParams u (Filters "dataflow" "" "" "" "") 0 10) "customerId"
    = VStr "dataflow".
Proof.
  intros u.
  exact (superadmin_queries_are_unscoped u (Range "2025-03-08" "2025-03-15")
           (Filters "dataflow" "" "" "" "") 0 10
           (or_intror (ex_intro _ (User "SUPERADMIN" None) (conj eq_refl eq_refl)))).
Defined.

End Queries.

(* ================================================================== *)
(** * Properties of the events page *)

Section EventsPage.
Import Js AccessGate Planner Api Events.

Lemma failureMessageOr_truthy (fallback : string) (err : Js.error) :
  fallback ≠ "" → truthy (failureMessageOr fallback err) = true.
Proof.
  intros Hf. unfold failureMessageOr, or.
  repeat match goal with
         | |- context [if truthy ?v then _ else _] => destruct (truthy v) eqn:?
         end; try done.
  cbn. by rewrite bool_decide_eq_false_2.
Qed.

(** X12: a failed load of the events page keeps the rows and the total that
    were there and stores a message; a load that goes through replaces rows
    and total from the response and leaves the stored error as it was, so an
    earlier message stays on the page. Either way exactly one request is
    made and loading ends. *)
Theorem loadEvents_outcomes :
  ∀ (u : option user) (api : backend) (st : state),
    let call := getEvents (eventsParamsOf u (filters st) (page st) (rowsPerPage st)) in
    let st' := (loadEvents u api st).1 in
    (loadEvents u api st).2 = [call]
    ∧ loading st' = false
    ∧ filters st' = filters st ∧ page st' = page st
    ∧ (∀ err, api call = Throw err →
         events st' = events st ∧ totalElements st' = totalElements st
         ∧ error st' = failureMessageOr "Failed to load events" err
         ∧ truthy (error st') = true)
    ∧ (∀ content total entries,
         api call = Ok (VObj entries) →
         assoc "content" entries = content →
         assoc "totalElements" entries = total →
         events st' = content ∧ totalElements st' = total
         ∧ error st' = error st).
Proof.
  intros u api st call st'. unfold st', loadEvents. fold call.
  destruct (api call) as [response|err] eqn:Hcall.
  - destruct response as [| | | | | |ents]; cbn;
      (split; [done|]); (split; [done|]); (split; [done|]); (split; [done|]);
      (split; [intros err' Herr; discriminate Herr|]);
      intros c t ents' Hok Hc Ht; try discriminate Hok.
    injection Hok as <-. by rewrite Hc, Ht.
  - cbn. (split; [done|]); (split; [done|]); (split; [done|]); (split; [done|]).
    split.
    + intros err' [= <-]. repeat split. by apply failureMessageOr_truthy.
    + intros c t ents' Hok. discriminate Hok.
Qed.

Lemma loadEvents_outcomes_witness :
  let st := State (VArr [VStr "row"]) (VArr []) false (VStr "Network Error") 0 10
                  (num 1) (filter_entries (Filters "" "" "" "" "")) in
  let ok : backend :=
    λ _, Ok (VObj [("content", VArr []); ("totalElements", num 0)]) in
  let down : backend := λ _, Throw (Error None "timeout") in
  (events (loadEvents None ok st).1 = VArr []
   ∧ error (loadEvents None ok st).1 = VStr "Network Error")
  ∧ (events (loadEvents None down st).1 = VArr [VStr "row"]
     ∧ error (loadEvents None down st).1 = VStr "timeout").
Proof.
  intros st ok down. split.
  - destruct (loadEvents_outcomes None ok st) as (_ & _ & _ & _ & _ & H).
    destruct (H (VArr []) (num 0) _ eq_refl eq_refl eq_refl) as (He & _ & Hr).
    split; [exact He | exact Hr].
  - destruct (loadEvents_outcomes None down st) as (_ & _ & _ & _ & H & _).
    destruct (H _ eq_refl) as (He & _ & Hr & _).
    split; [exact He | exact Hr].
Defined.

(** X13: a response without a body ([null] or [undefined]) is a failed
    load: the read of [response.content] throws, the [catch] stores a
    message, and rows and total stay as they were. *)
Theorem loadEvents_empty_response :
  ∀ (u : option user) (api : backend) (st : state) (response : value),
    api (getEvents (eventsParamsOf u (filters st) (page st) (rowsPerPage st)))
      = Ok response →
    response = VNull ∨ response = VUndefined →
    events (loadEvents u api st).1 = events st
    ∧ totalElements (loadEvents u api st).1 = totalElements st
    ∧ truthy (error (loadEvents u api st).1) = true.
Proof.
  intros u api st response Hr Hnull. unfold loadEvents. rewrite Hr.
  destruct Hnull as [-> | ->]; cbn; repeat split;
    by apply failureMessageOr_truthy.
Qed.

Lemma loadEvents_empty_response_witness :
  events (loadEvents None (λ _, Ok VNull) initial).1 = VArr []
  ∧ truthy (error (loadEvents None (λ _, Ok VNull) initial).1) = true.
Proof.
  destruct (loadEvents_empty_response None (λ _, Ok VNull) initial VNull
              eq_refl (or_introl eq_refl)) as (He & _ & Ht).
  split; [exact He | exact Ht].
Defined.

(** X14: only a SUPERADMIN makes the events page ask for the customer list;
    for everyone else, and when the request fails, the list is empty.
    Nothing else on the page changes. *)
Theorem events_loadCustomers_only_for_superadmin :
  ∀ (u : option user) (api : backend) (st : state),
    let out := loadCustomers u api st in
    (Header.role_is u "SUPERADMIN" = false →
       out.2 = [] ∧ customers out.1 = VArr [])
    ∧ (Header.role_is u "SUPERADMIN" = true →
       out.2 = [getCustomers]
       ∧ customers out.1
         = match api getCustomers with Ok list => list | Throw _ => VArr [] end)
    ∧ events out.1 = events st ∧ error out.1 = error st
    ∧ filters out.1 = filters st ∧ page out.1 = page st.
Proof.
  intros u api st. cbv zeta. unfold loadCustomers.
  destruct (Header.role_is u "SUPERADMIN"); [destruct (api getCustomers)|];
    repeat split; done.
Qed.

Lemma events_loadCustomers_only_for_superadmin_witness :
  (loadCustomers (Some (User "ADMIN" (Some "techcorp")))
                 (λ _, Ok (VArr [VStr "leak"])) initial).2 = []
  ∧ customers (loadCustomers (Some (User "ADMIN" (Some "techcorp")))
                             (λ _, Ok (VArr [VStr "leak"])) initial).1 = VArr [].
Proof.
  exact (proj1 (events_loadCustomers_only_for_superadmin
                  (Some (User "ADMIN" (Some "techcorp")))
                  (λ _, Ok (VArr [VStr "leak"])) initial) eq_refl).
Defined.

Lemma spread_filter_entries (f : Planner.filters) :
  spread [] (filter_entries f) = filter_entries f.
Proof. reflexivity. Qed.

(** X15: changing a filter stores the new value under its name, leaves
    every other filter as it was, and goes back to the first page; for the
    five filters of the form no key is added and the order of the keys is
    kept. Rows and error are untouched. *)
Theorem handleFilterChange_updates_one_filter :
  ∀ (f : Planner.filters) (st : state) (field v : string),
    filters st = filter_entries f →
    let st' := handleFilterChange field v st in
    assoc field (filters st') = VStr v
    ∧ (∀ k, k ≠ field → assoc k (filters st') = assoc k (filters st))
    ∧ page st' = 0
    ∧ (field ∈ ["customerId"; "userId"; "vendor"; "model"; "apiType"] →
         (filters st').*1 = (filters st).*1)
    ∧ events st' = events st ∧ error st' = error st.
Proof.
  intros f st field v Hf. cbv zeta. unfold handleFilterChange.
  cbn [filters page events error]. rewrite Hf, spread_filter_entries.
  split; [apply assoc_set_entry|].
  split; [intros k Hk; by apply assoc_set_entry_ne|].
  split; [done|]. split; [|done].
  intros Hin.
  repeat (apply elem_of_cons in Hin as [->|Hin]; [reflexivity|]).
  by apply elem_of_nil in Hin.
Qed.

Lemma handleFilterChange_updates_one_filter_witness :
  let st' := handleFilterChange "vendor" "openai" initial in
  assoc "vendor" (filters st') = VStr "openai"
  ∧ assoc "model" (filters st') = VStr ""
  ∧ (filters st').*1 = ["customerId"; "userId"; "vendor"; "model"; "apiType"].
Proof.
  intros st'.
  destruct (handleFilterChange_updates_one_filter (Filters "" "" "" "" "")
              initial "vendor" "openai" eq_refl) as (Hv & Hk & _ & Hkeys & _).
  split; [exact Hv|]. split.
  - unfold st'. rewrite Hk by discriminate. reflexivity.
  - unfold st'. rewrite Hkeys; [reflexivity|]. repeat constructor.
Defined.

End EventsPage.

(* ================================================================== *)
(** * Properties of the customers and users pages *)

Section CrudPages.
Import Js Api Crud.

Lemma load_calls (r : resource) (api : backend) (st : state) :
  (load r api st).2 = [list_ r].
Proof. unfold load. by destruct (api (list_ r)). Qed.

Lemma load_keeps_dialog (r : resource) (api : backend) (st : state) :
  showDialog (load r api st).1 = showDialog st
  ∧ editing (load r api st).1 = editing st.
Proof. unfold load. by destruct (api (list_ r)). Qed.

(** X16: deleting asks first. When the user declines, no request is made
    and nothing changes. When the delete request fails, it is the only
    request made: the list is not reloaded and stays as it was, and the
    page's delete-failed message is stored. When it goes through, the list
    is asked for again, right after. *)
Theorem handleDelete_outcomes :
  ∀ (r : resource) (api : backend) (target : string) (st : state),
    handleDelete r api false target st = (st, [])
    ∧ (∀ err, api (delete_ r target) = Throw err →
         handleDelete r api true target st
         = (State (items st) (loading st) (VStr (deleteFailed r))
                  (showDialog st) (editing st),
            [delete_ r target]))
    ∧ (∀ v, api (delete_ r target) = Ok v →
         handleDelete r api true target st
         = ((load r api st).1, [delete_ r target; list_ r])).
Proof.
  intros r api target st. split; [done|]. split.
  - intros err Herr. unfold handleDelete. by rewrite Herr.
  - intros v Hok. unfold handleDelete. rewrite Hok.
    pose proof (load_calls r api st) as Hc.
    destruct (load r api st) as [st' calls]. cbn in *. by rewrite Hc.
Qed.

Lemma handleDelete_outcomes_witness :
  let st := State (VArr [VStr "techcorp"]) false VNull false None in
  let refuses : backend := λ _, Throw (Error None "Request failed with status code 409") in
  Customers.handleDeleteCustomer refuses true "techcorp" st
  = (State (VArr [VStr "techcorp"]) false (VStr "Failed to delete customer") false None,
     [Delete "/api/customers/techcorp"])
  ∧ Users.handleDeleteUser refuses false "u-1" st = (st, []).
Proof.
  intros st refuses. split.
  - exact (proj1 (proj2 (handleDelete_outcomes Customers.resource refuses
                           "techcorp" st)) _ eq_refl).
  - exact (proj1 (handleDelete_outcomes Users.resource refuses "u-1" st)).
Defined.

(** X17: saving sends an update to the row being edited, or a create when
    none is. When that request fails the dialog stays as it was, the list is
    neither changed nor reloaded, and the page's save-failed message is
    stored; when it goes through the dialog is closed and the list is asked
    for again. *)
Theorem handleSave_outcomes :
  ∀ (r : resource) (api : backend) (formData : value) (st : state),
    let call :=
      match editing st with
      | Some e => update r (id e) formData
      | None => create r formData
      end in
    (∀ err, api call = Throw err →
       handleSave r api formData st
       = (State (items st) (loading st) (VStr (saveFailed r))
                (showDialog st) (editing st),
          [call]))
    ∧ (∀ v, api call = Ok v →
         (handleSave r api formData st).2 = [call; list_ r]
         ∧ showDialog (handleSave r api formData st).1 = false
         ∧ editing (handleSave r api formData st).1 = editing st).
Proof.
  intros r api formData st call. split.
  - intros err Herr. unfold handleSave. fold call. by rewrite Herr.
  - intros v Hok. unfold handleSave. fold call. rewrite Hok.
    set (closed := State (items st) (loading st) (error st) false (editing st)).
    pose proof (load_calls r api closed) as Hc.
    pose proof (load_keeps_dialog r api closed) as [Hd He].
    destruct (load r api closed) as [st' calls]. cbn in *. by rewrite Hc.
Qed.

Lemma handleSave_outcomes_witness :
  let editingAcme :=
    State (VArr []) false VNull true (Some (Entity "acme" (VObj []))) in
  let down : backend := λ _, Throw (Error None "Network Error") in
  let up : backend := λ _, Ok (VArr []) in
  Customers.handleSaveCustomer down (VObj [("active", VBool false)]) editingAcme
  = (State (VArr []) false (VStr "Failed to save customer") true
           (Some (Entity "acme" (VObj []))),
     [Put "/api/customers/acme" (VObj [("active", VBool false)])])
  ∧ (Users.handleSaveUser up (VObj []) (handleAdd initial)).2
    = [Post "/api/users" (VObj []); Get "/api/users" VUndefined].
Proof.
  intros editingAcme down up. split.
  - exact (proj1 (handleSave_outcomes Customers.resource down
                    (VObj [("active", VBool false)]) editingAcme) _ eq_refl).
  - exact (proj1 (proj2 (handleSave_outcomes Users.resource up (VObj [])
                           (handleAdd initial)) _ eq_refl)).
Defined.

(** X18: on these pages an error message, once stored, is never cleared:
    after loading, deleting, saving, or opening the dialog the stored error is
    still a message. *)
Theorem crud_error_is_never_cleared :
  ∀ (r : resource) (api : backend) (st : state)
    (confirmed : bool) (target : string) (formData : value) (e : entity),
    loadFailed r ≠ "" → deleteFailed r ≠ "" → saveFailed r ≠ "" →
    truthy (error st) = true →
    truthy (error (load r api st).1) = true
    ∧ truthy (error (handleDelete r api confirmed target st).1) = true
    ∧ truthy (error (handleSave r api formData st).1) = true
    ∧ truthy (error (handleAdd st)) = true
    ∧ truthy (error (handleEdit e st)) = true.
Proof.
  intros r api st confirmed target formData e Hl Hd Hs Herr.
  assert (∀ st0, truthy (error st0) = true →
                 truthy (error (load r api st0).1) = true) as Hload.
  { intros st0 H0. unfold load. destruct (api (list_ r)); cbn; [done|].
    by apply failureMessageOr_truthy. }
  split; [by apply Hload|]. split; [|split; [|done]].
  - unfold handleDelete. destruct confirmed; [|done].
    destruct (api (delete_ r target)).
    + specialize (Hload st Herr). by destruct (load r api st).
    + cbn. by rewrite bool_decide_eq_false_2.
  - unfold handleSave.
    destruct (api _).
    + set (closed := State _ _ _ false _).
      specialize (Hload closed Herr). by destruct (load r api closed).
    + cbn. by rewrite bool_decide_eq_false_2.
Qed.

Lemma crud_error_is_never_cleared_witness :
  let st := State (VArr []) false (VStr "Failed to save customer") true None in
  truthy (error (Customers.loadCustomers (λ _, Ok (VArr [VStr "techcorp"])) st).1)
  = true.
Proof.
  intros st.
  exact (proj1 (crud_error_is_never_cleared Customers.resource
                  (λ _, Ok (VArr [VStr "techcorp"])) st false "" VNull
                  (Entity "" VNull) ltac:(discriminate) ltac:(discriminate)
                  ltac:(discriminate) eq_refl)).
Defined.

End CrudPages.

(* ================================================================== *)
(** * Properties of the login page and of the dashboard's handlers *)

Section LoginAndDashboard.
Import Js AccessGate DateFns Planner Api.

(** X19: a login that goes through always navigates to [/] and leaves no
    error on the form; a login that fails navigates nowhere and stores a
    message: the server's when it sent one, else the error's, else 'Login
    failed'. The form is never left in the loading state, and the typed
    e-mail and password stay. *)
Theorem login_handleSubmit_outcomes :
  ∀ (login : string → string → result value) (st : Login.state),
    let out := Login.handleSubmit login st in
    Login.isLoading out.1 = false
    ∧ Login.email out.1 = Login.email st
    ∧ Login.password out.1 = Login.password st
    ∧ (∀ v, login (Login.email st) (Login.password st) = Ok v →
         out.2 = Some "/" ∧ Login.error out.1 = VStr "")
    ∧ (∀ err, login (Login.email st) (Login.password st) = Throw err →
         out.2 = None
         ∧ Login.error out.1 = failureMessageOr "Login failed" err
         ∧ truthy (Login.error out.1) = true).
Proof.
  intros login st. cbv zeta. unfold Login.handleSubmit.
  destruct (login _ _) as [v|err]; cbn;
    (split; [done|]); (split; [done|]); (split; [done|]); split.
  - done.
  - intros err' H. discriminate H.
  - intros v' H. discriminate H.
  - intros err' [= <-]. split; [done|]. split; [done|].
    by apply failureMessageOr_truthy.
Qed.

Lemma login_handleSubmit_outcomes_witness :
  let st := Login.State "john.smith@techcorp.com" "wrong" (VStr "") false in
  let rejects := λ _ _ : string,
    Throw (Error (Some (Response 401 (VObj [("message", VStr "Invalid credentials")])))
                 "Request failed with status code 401") in
  (Login.handleSubmit rejects st).2 = None
  ∧ Login.error (Login.handleSubmit rejects st).1 = VStr "Invalid credentials".
Proof.
  intros st rejects.
  destruct (login_handleSubmit_outcomes rejects st) as (_ & _ & _ & _ & H).
  destruct (H _ eq_refl) as (Hn & He & _).
  split; [exact Hn | exact He].
Defined.

(** X20: the message a page shows for a failure is the server's [message]
    whenever the response body carries a truthy one, whatever the error's own
    message; without it, the error's own message when that is not empty; and
    the page's fixed text only when both are missing. *)
Theorem failure_message_precedence :
  ∀ (fallback msg : string) (r : response) (served : value),
    (get_opt (data r) "message" = served → truthy served = true →
       failureMessageOr fallback (Error (Some r) msg) = served)
    ∧ (get_opt (data r) "message" = served → truthy served = false → msg ≠ "" →
       failureMessageOr fallback (Error (Some r) msg) = VStr msg)
    ∧ (msg ≠ "" → failureMessageOr fallback (Error None msg) = VStr msg)
    ∧ failureMessageOr fallback (Error None "") = VStr fallback
    ∧ Dashboard.failureMessage (Error (Some r) msg)
      = failureMessageOr "Failed to load analytics data" (Error (Some r) msg).
Proof.
  intros fallback msg r served. unfold failureMessageOr, or. cbn.
  repeat split.
  - intros <- Ht. rewrite Ht. cbv iota. by rewrite Ht.
  - intros <- Ht Hm. rewrite Ht. cbn. by rewrite bool_decide_eq_false_2.
  - intros Hm. by rewrite bool_decide_eq_false_2.
Qed.

Lemma failure_message_precedence_witness :
  failureMessageOr "Failed to load events"
    (Error (Some (Response 403 (VObj [("message", VStr "Forbidden")])))
           "Request failed with status code 403")
  = VStr "Forbidden"
  ∧ failureMessageOr "Failed to load events"
      (Error (Some (Response 502 (VStr "<html>Bad Gateway</html>")))
             "Request failed with status code 502")
    = VStr "Request failed with status code 502".
Proof.
  split.
  - exact (proj1 (failure_message_precedence "Failed to load events"
                    "Request failed with status code 403"
                    (Response 403 (VObj [("message", VStr "Forbidden")]))
                    (VStr "Forbidden")) eq_refl eq_refl).
  - exact (proj1 (proj2 (failure_message_precedence "Failed to load events"
                    "Request failed with status code 502"
                    (Response 502 (VStr "<html>Bad Gateway</html>"))
                    VUndefined)) eq_refl eq_refl ltac:(discriminate)).
Defined.

(** X21: whatever the backend answers, [loadAnalytics] leaves the selector
    alone, stores the resolved range as start and end date, and ends the
    loading state; and when the fetch and the transform go through it stores
    the new view model and no error, so the page shows the charts even after
    an earlier failure. *)
Theorem loadAnalytics_always_stores_the_range :
  ∀ (h : host) (u : option user) (getAnalytics transform : value → result value)
    (st : Dashboard.state),
    let st' := Dashboard.loadAnalytics h u getAnalytics transform st in
    let r := calculateDateRange h (Dashboard.dateRange st) in
    Dashboard.dateRange st' = Dashboard.dateRange st
    ∧ Dashboard.startDate st' = start r
    ∧ Dashboard.endDate st' = end_ r
    ∧ Dashboard.loading st' = false
    ∧ (∀ data model,
         getAnalytics (analyticsParams u r) = Ok data → transform data = Ok model →
         Dashboard.render st' = Dashboard.Charts model).
Proof.
  intros h u getAnalytics transform st. cbv zeta. unfold Dashboard.loadAnalytics.
  cbv zeta.
  destruct (getAnalytics _) as [data|err] eqn:Hget; cbn.
  - destruct (transform data) as [model|err] eqn:Ht; cbn;
      (split; [done|]); (split; [done|]); (split; [done|]); (split; [done|]);
      intros d m [= <-] Hm; rewrite Ht in Hm; [|discriminate Hm].
    by injection Hm as <-.
  - (split; [done|]); (split; [done|]); (split; [done|]); (split; [done|]).
    intros d m H. discriminate H.
Qed.

Lemma loadAnalytics_always_stores_the_range_witness :
  let h := Host 1742040000000 0 in
  let failed := Dashboard.State None false (VStr "Network Error") "7days" "" "" in
  let st' := Dashboard.loadAnalytics h None (λ _, Ok (VObj []))
                                     Normalizer.transformDashboard failed in
  Dashboard.startDate st' = "2025-03-08"
  ∧ (∃ model, Dashboard.render st' = Dashboard.Charts model).
Proof.
  intros h failed st'.
  destruct (loadAnalytics_always_stores_the_range h None (λ _, Ok (VObj []))
              Normalizer.transformDashboard failed) as (_ & Hs & _ & _ & Hr).
  split.
  - unfold st'. rewrite Hs. vm_compute. reflexivity.
  - eexists. apply (Hr (VObj [])); reflexivity.
Defined.

(** X22: the add-events button reloads the analytics only after the add
    request went through. When the add fails, no analytics request is made:
    view model, range and loading flag stay as they were and the message is
    'Failed to add random events'. The button is re-enabled either way. *)
Theorem handleAddRandomEvents_outcomes :
  ∀ (h : host) (u : option user) (api : backend)
    (transform : value → result value) (st : AddEvents.state),
    let add := addRandomEvents (VObj [("count", num 10); ("todayOnly", VBool true)]) in
    let st' := AddEvents.handleAddRandomEvents h u api transform st in
    AddEvents.addingEvents st' = false
    ∧ (∀ err, api add = Throw err →
         AddEvents.page st'
         = Dashboard.State (Dashboard.analyticsData (AddEvents.page st))
                           (Dashboard.loading (AddEvents.page st))
                           (VStr "Failed to add random events")
                           (Dashboard.dateRange (AddEvents.page st))
                           (Dashboard.startDate (AddEvents.page st))
                           (Dashboard.endDate (AddEvents.page st)))
    ∧ (∀ v, api add = Ok v →
         AddEvents.page st'
         = Dashboard.loadAnalytics h u (λ params, api (getAnalytics params))
                                   transform (AddEvents.page st)).
Proof.
  intros h u api transform st. cbv zeta. unfold AddEvents.handleAddRandomEvents.
  destruct (api _) as [v|err]; cbn; (split; [done|]); split;
    intros x H; first [discriminate H | done].
Qed.

Lemma handleAddRandomEvents_outcomes_witness :
  let h := Host 1742040000000 0 in
  let vm := VObj [("summary", VObj [])] in
  let st := AddEvents.State
              (Dashboard.State (Some vm) false VNull "7days" "2025-03-08" "2025-03-15")
              false in
  let forbidden : backend := λ _, Throw (Error None "Request failed with status code 403") in
  Dashboard.analyticsData
    (AddEvents.page (AddEvents.handleAddRandomEvents h None forbidden
                       Normalizer.transformDashboard st)) = Some vm
  ∧ Dashboard.error
      (AddEvents.page (AddEvents.handleAddRandomEvents h None forbidden
                         Normalizer.transformDashboard st))
    = VStr "Failed to add random events".
Proof.
  intros h vm st forbidden.
  rewrite (proj1 (proj2 (handleAddRandomEvents_outcomes h None forbidden
                           Normalizer.transformDashboard st)) _ eq_refl).
  split; reflexivity.
Defined.

End LoginAndDashboard.

(* ================================================================== *)
(** * More on the normalizer *)

Section NormalizerShape.
Import Js Normalizer Checks.

Lemma get_get_opt (d : value) (k : string) :
  nullish d = false → get d k = Ok (get_opt d k).
Proof. by destruct d. Qed.

Lemma get_nullish (d : value) (k : string) : nullish d = true → is_ok (get d k) = false.
Proof. by destruct d. Qed.

Lemma summary_unfold (d : value) :
  nullish d = false →
  summary d
  = Ok (VObj [("totalEvents", or (get_opt d "totalEvents") zero);
              ("totalTokens", or (get_opt d "totalTokens") zero);
              ("totalCost", or (get_opt d "totalCost") zero);
              ("totalRevenue", or (get_opt d "totalRevenue") zero);
              ("totalProfit", or (get_opt d "totalProfit") zero);
              ("profitMargin", or (get_opt d "profitMargin") zero)]).
Proof. intros Hd. unfold summary. by rewrite !(get_get_opt d) by done. Qed.

Lemma field_or_unfold (d : value) (k : string) (dflt : value) :
  nullish d = false → field_or d k dflt = Ok (or (get_opt d k) dflt).
Proof. intros Hd. unfold field_or. by rewrite get_get_opt. Qed.

Lemma transformDashboard_unfold (d : value) :
  nullish d = false →
  transformDashboard d
  = (timeSeriesData ← array_map (or (get_opt d "timeSeriesData") (VArr []))
                                dashboardPoint;
     topCustomers ← array_map (or (get_opt d "topCustomers") (VArr [])) topCustomer;
     mret (VObj [("summary",
                  VObj [("totalEvents", or (get_opt d "totalEvents") zero);
                        ("totalTokens", or (get_opt d "totalTokens") zero);
                        ("totalCost", or (get_opt d "totalCost") zero);
                        ("totalRevenue", or (get_opt d "totalRevenue") zero);
                        ("totalProfit", or (get_opt d "totalProfit") zero);
                        ("profitMargin", or (get_opt d "profitMargin") zero)]);
                 ("usageByVendor", or (get_opt d "usageByVendor") (VObj []));
                 ("usageByModel", or (get_opt d "usageByModel") (VObj []));
                 ("usageByApiType", or (get_opt d "usageByApiType") (VObj []));
                 ("timeSeriesData", timeSeriesData);
                 ("topCustomers", topCustomers)])).
Proof.
  intros Hd. unfold transformDashboard.
  rewrite summary_unfold, !field_or_unfold by done. reflexivity.
Qed.

Lemma transformAnalytics_unfold (d : value) :
  nullish d = false →
  transformAnalytics d
  = (timeSeriesData ← array_map (or (get_opt d "timeSeriesData") (VArr []))
                                analyticsPoint;
     topCustomers ← array_map (or (get_opt d "topCustomers") (VArr [])) topCustomer;
     mret (VObj [("summary",
                  VObj [("totalEvents", or (get_opt d "totalEvents") zero);
                        ("totalTokens", or (get_opt d "totalTokens") zero);
                        ("totalCost", or (get_opt d "totalCost") zero);
                        ("totalRevenue", or (get_opt d "totalRevenue") zero);
                        ("totalProfit", or (get_opt d "totalProfit") zero);
                        ("profitMargin", or (get_opt d "profitMargin") zero)]);
                 ("usageByVendor", or (get_opt d "usageByVendor") (VObj []));
                 ("usageByModel", or (get_opt d "usageByModel") (VObj []));
                 ("usageByApiType", or (get_opt d "usageByApiType") (VObj []));
                 ("usageByRegion", or (get_opt d "usageByRegion") (VObj []));
                 ("usageByEndpoint", or (get_opt d "usageByEndpoint") (VObj []));
                 ("usageByUserRole", or (get_opt d "usageByUserRole") (VObj []));
                 ("timeSeriesData", timeSeriesData);
                 ("topCustomers", topCustomers);
                 ("growthMetrics", or (get_opt d "growthMetrics") (VObj []));
                 ("predictions", or (get_opt d "predictions") (VObj []));
                 ("efficiencyMetrics", or (get_opt d "efficiencyMetrics") (VObj []));
                 ("seasonality", or (get_opt d "seasonality") (VObj []));
                 ("anomalies", or (get_opt d "anomalies") (VArr []))])).
Proof.
  intros Hd. unfold transformAnalytics.
  rewrite summary_unfold, !field_or_unfold by done. reflexivity.
Qed.

Lemma transform_nullish (d : value) :
  nullish d = true →
  is_ok (transformDashboard d) = false ∧ is_ok (transformAnalytics d) = false.
Proof. by destruct d. Qed.

Lemma callback_ok (item : value) :
  is_ok (dashboardPoint item) = negb (nullish item)
  ∧ is_ok (analyticsPoint item) = negb (nullish item)
  ∧ is_ok (topCustomer item) = negb (nullish item).
Proof. by destruct item. Qed.

Lemma mapM_is_ok (f : value → result value) (items : list value) :
  (∀ i, is_ok (f i) = negb (nullish i)) →
  is_ok (mapM f items) = forallb (λ i, negb (nullish i)) items.
Proof.
  intros Hf. induction items as [|i rest IH]; [done|].
  cbn. specialize (Hf i). destruct (f i) as [o|e]; cbn in *; rewrite <- Hf; [|done].
  cbn. destruct (mapM f rest); cbn in *; by rewrite <- IH.
Qed.

Lemma array_map_is_ok (f : value → result value) (v : value) :
  (∀ i, is_ok (f i) = negb (nullish i)) →
  is_ok (array_map (or v (VArr [])) f) = seriesOk v.
Proof.
  intros Hf. unfold or, seriesOk. destruct (truthy v) eqn:Hv; [|done].
  destruct v as [| | | | |items|]; try done.
  cbn. rewrite <- (mapM_is_ok f items Hf). by destruct (mapM f items).
Qed.

(** X23: exactly which payloads the transforms accept. Either transform
    returns a view model when the payload is not [null]/[undefined] and each
    of [timeSeriesData] and [topCustomers] is missing (or otherwise falsy) or
    an array without [null]/[undefined] items; on every other payload it
    throws. All other fields may be missing or of any kind, and the two
    transforms accept the same payloads. *)
Theorem transforms_accept_exactly_walkable_payloads :
  ∀ d : value,
    is_ok (transformDashboard d) = payloadOk d
    ∧ is_ok (transformAnalytics d) = payloadOk d.
Proof.
  intros d. unfold payloadOk. destruct (nullish d) eqn:Hd.
  - by destruct (transform_nullish d Hd) as [-> ->].
  - rewrite transformDashboard_unfold, transformAnalytics_unfold by done. cbn [negb andb].
    rewrite <- (array_map_is_ok dashboardPoint (get_opt d "timeSeriesData"))
      by (intros i; apply callback_ok).
    rewrite <- (array_map_is_ok topCustomer (get_opt d "topCustomers"))
      by (intros i; apply callback_ok).
    assert (is_ok (array_map (or (get_opt d "timeSeriesData") (VArr [])) analyticsPoint)
            = is_ok (array_map (or (get_opt d "timeSeriesData") (VArr [])) dashboardPoint))
      as Hsame.
    { rewrite !array_map_is_ok; [done | |]; intros i; apply callback_ok. }
    destruct (array_map _ dashboardPoint), (array_map _ analyticsPoint),
      (array_map _ topCustomer); cbn in *; done.
Qed.

Lemma mapM_Forall2 (f : value → result value) (items outs : list value) :
  mapM f items = Ok outs → Forall2 (λ i o, f i = Ok o) items outs.
Proof.
  revert outs. induction items as [|i rest IH]; intros outs H; cbn in H.
  - injection H as <-. constructor.
  - destruct (f i) as [o|e] eqn:Hi; [|discriminate H]. cbn in H.
    destruct (mapM f rest) as [os|e] eqn:Hr; [|discriminate H]. cbn in H.
    injection H as <-. constructor; [done|]. by apply IH.
Qed.

Lemma ok_not_nullish (d vm : value) :
  transformDashboard d = Ok vm ∨ transformAnalytics d = Ok vm → nullish d = false.
Proof.
  intros H. destruct (nullish d) eqn:Hd; [|done].
  destruct (transform_nullish d Hd) as [H1 H2].
  destruct H as [H|H]; rewrite H in *; discriminate.
Qed.

(** X24: the sequences go through in the order the server sent them, one
    output per input: whenever a transform returns, the i-th point (top
    customer) of the view model is the callback's result on the i-th item of
    the payload. Nothing is sorted, dropped or cut off. *)
Theorem sequences_are_mapped_in_order :
  ∀ (d vm : value) (series customers : list value),
    get_opt d "timeSeriesData" = VArr series →
    get_opt d "topCustomers" = VArr customers →
    (transformDashboard d = Ok vm →
       ∃ points rows,
         get_opt vm "timeSeriesData" = VArr points
         ∧ get_opt vm "topCustomers" = VArr rows
         ∧ Forall2 (λ i o, dashboardPoint i = Ok o) series points
         ∧ Forall2 (λ i o, topCustomer i = Ok o) customers rows)
    ∧ (transformAnalytics d = Ok vm →
       ∃ points rows,
         get_opt vm "timeSeriesData" = VArr points
         ∧ get_opt vm "topCustomers" = VArr rows
         ∧ Forall2 (λ i o, analyticsPoint i = Ok o) series points
         ∧ Forall2 (λ i o, topCustomer i = Ok o) customers rows).
Proof.
  intros d vm series customers Hs Hc. split; intros H.
  - pose proof (ok_not_nullish d vm (or_introl H)) as Hd.
    rewrite transformDashboard_unfold, Hs, Hc in H by done.
    change (or (VArr series) (VArr [])) with (VArr series) in H.
    change (or (VArr customers) (VArr [])) with (VArr customers) in H.
    cbn [array_map] in H.
    destruct (mapM dashboardPoint series) as [points|e] eqn:Hp; [|discriminate H].
    destruct (mapM topCustomer customers) as [rows|e] eqn:Hr; [|discriminate H].
    injection H as <-. exists points, rows.
    split; [reflexivity|]. split; [reflexivity|].
    split; by apply mapM_Forall2.
  - pose proof (ok_not_nullish d vm (or_intror H)) as Hd.
    rewrite transformAnalytics_unfold, Hs, Hc in H by done.
    change (or (VArr series) (VArr [])) with (VArr series) in H.
    change (or (VArr customers) (VArr [])) with (VArr customers) in H.
    cbn [array_map] in H.
    destruct (mapM analyticsPoint series) as [points|e] eqn:Hp; [|discriminate H].
    destruct (mapM topCustomer customers) as [rows|e] eqn:Hr; [|discriminate H].
    injection H as <-. exists points, rows.
    split; [reflexivity|]. split; [reflexivity|].
    split; by apply mapM_Forall2.
Qed.

Lemma sequences_are_mapped_in_order_witness :
  let d := VObj [("timeSeriesData",
                  VArr [VObj [("date", VStr "2025-03-14")];
                        VObj [("date", VStr "2025-03-13")]]);
                 ("topCustomers", VArr [])] in
  ∃ vm points,
    transformDashboard d = Ok vm
    ∧ get_opt vm "timeSeriesData" = VArr points
    ∧ Forall2 (λ i o, dashboardPoint i = Ok o)
              [VObj [("date", VStr "2025-03-14")]; VObj [("date", VStr "2025-03-13")]]
              points.
Proof.
  intros d.
  destruct (transformDashboard d) as [vm|e] eqn:Hvm; [|discriminate Hvm].
  destruct (proj1 (sequences_are_mapped_in_order d vm _ _ eq_refl eq_refl) Hvm)
    as (points & rows & Hp & _ & HF & _).
  exists vm, points. split; [reflexivity|]. split; [exact Hp | exact HF].
Defined.

Lemma or_default (x dflt : value) : truthy (or x dflt) = true ∨ or x dflt = dflt.
Proof. unfold or. destruct (truthy x) eqn:Hx; [by left | by right]. Qed.

Lemma or_truthy_default (x dflt : value) : truthy dflt = true → truthy (or x dflt) = true.
Proof. intros Hd. unfold or. by destruct (truthy x) eqn:Hx. Qed.

Lemma array_map_inv (f : value → result value) (v out : value) :
  array_map (or v (VArr [])) f = Ok out →
  ∃ items outs, or v (VArr []) = VArr items ∧ out = VArr outs
                ∧ Forall2 (λ i o, f i = Ok o) items outs.
Proof.
  intros H. destruct (or v (VArr [])) as [| | | | |items|]; try discriminate H.
  cbn in H. destruct (mapM f items) as [outs|e] eqn:Hm; [|discriminate H].
  injection H as <-. exists items, outs. repeat split. by apply mapM_Forall2.
Qed.

Lemma point_defaulted (item o : value) :
  dashboardPoint item = Ok o ∨ analyticsPoint item = Ok o →
  defaulted (get_opt o "events") ∧ defaulted (get_opt o "cost")
  ∧ defaulted (get_opt o "revenue").
Proof.
  intros [H|H]; destruct item; try discriminate H; injection H as <-;
    repeat split; apply or_default.
Qed.

Lemma row_defaulted (item o : value) :
  topCustomer item = Ok o →
  truthy (get_opt o "customerName") = true
  ∧ defaulted (get_opt o "totalCost") ∧ defaulted (get_opt o "eventCount").
Proof.
  intros H; destruct item; try discriminate H; injection H as <-;
    (split; [by apply or_truthy_default|]); split; apply or_default.
Qed.

Lemma Forall2_Forall_r {A B} (R : A → B → Prop) (P : B → Prop) (l : list A) (k : list B) :
  (∀ a b, R a b → P b) → Forall2 R l k → Forall P k.
Proof. intros HP. induction 1; constructor; eauto. Qed.

(** X25: whatever the payload, a view model that is returned has no hole in
    a defaulted place: each of the six totals is a truthy value or the number
    0 (never [null] or [undefined]); each mapping and each sequence is there;
    every point's events, cost and revenue and every top customer's cost and
    event count is a truthy value or 0; and every top customer has a
    non-empty name. *)
Theorem view_model_has_no_holes :
  ∀ (d vm : value),
    transformDashboard d = Ok vm ∨ transformAnalytics d = Ok vm →
    (∀ k, k ∈ ["totalEvents"; "totalTokens"; "totalCost"; "totalRevenue";
               "totalProfit"; "profitMargin"] →
          defaulted (get_opt (get_opt vm "summary") k))
    ∧ (∀ k, k ∈ ["usageByVendor"; "usageByModel"; "usageByApiType"] →
            truthy (get_opt vm k) = true)
    ∧ ∃ points rows,
        get_opt vm "timeSeriesData" = VArr points
        ∧ get_opt vm "topCustomers" = VArr rows
        ∧ Forall (λ o, defaulted (get_opt o "events") ∧ defaulted (get_opt o "cost")
                       ∧ defaulted (get_opt o "revenue")) points
        ∧ Forall (λ o, truthy (get_opt o "customerName") = true
                       ∧ defaulted (get_opt o "totalCost")
                       ∧ defaulted (get_opt o "eventCount")) rows.
Proof.
  intros d vm H. pose proof (ok_not_nullish d vm H) as Hd.
  destruct H as [H|H].
  - rewrite transformDashboard_unfold in H by done.
    destruct (array_map _ dashboardPoint) as [ts|e] eqn:Hts; [|discriminate H].
    destruct (array_map _ topCustomer) as [tc|e] eqn:Htc; [|discriminate H].
    injection H as <-.
    apply array_map_inv in Hts as (items & points & _ & -> & HFp).
    apply array_map_inv in Htc as (items' & rows & _ & -> & HFr).
    split; [|split].
    + intros k Hk.
      repeat (apply elem_of_cons in Hk as [->|Hk]; [apply or_default|]).
      by apply elem_of_nil in Hk.
    + intros k Hk.
      repeat (apply elem_of_cons in Hk as [->|Hk]; [by apply or_truthy_default|]).
      by apply elem_of_nil in Hk.
    + exists points, rows. split; [reflexivity|]. split; [reflexivity|]. split.
      * eapply Forall2_Forall_r; [|exact HFp]. intros a b Hab.
        apply (point_defaulted a b). by left.
      * eapply Forall2_Forall_r; [|exact HFr]. intros a b Hab.
        by apply (row_defaulted a b).
  - rewrite transformAnalytics_unfold in H by done.
    destruct (array_map _ analyticsPoint) as [ts|e] eqn:Hts; [|discriminate H].
    destruct (array_map _ topCustomer) as [tc|e] eqn:Htc; [|discriminate H].
    injection H as <-.
    apply array_map_inv in Hts as (items & points & _ & -> & HFp).
    apply array_map_inv in Htc as (items' & rows & _ & -> & HFr).
    split; [|split].
    + intros k Hk.
      repeat (apply elem_of_cons in Hk as [->|Hk]; [apply or_default|]).
      by apply elem_of_nil in Hk.
    + intros k Hk.
      repeat (apply elem_of_cons in Hk as [->|Hk]; [by apply or_truthy_default|]).
      by apply elem_of_nil in Hk.
    + exists points, rows. split; [reflexivity|]. split; [reflexivity|]. split.
      * eapply Forall2_Forall_r; [|exact HFp]. intros a b Hab.
        apply (point_defaulted a b). by right.
      * eapply Forall2_Forall_r; [|exact HFr]. intros a b Hab.
        by apply (row_defaulted a b).
Qed.

Lemma view_model_has_no_holes_witness :
  let d := VObj [("totalCost", VNull);
                 ("topCustomers", VArr [VObj [("organizationName", VStr "")]])] in
  ∃ vm rows,
    transformDashboard d = Ok vm
    ∧ defaulted (get_opt (get_opt vm "summary") "totalCost")
    ∧ get_opt vm "topCustomers" = VArr rows
    ∧ Forall (λ o, truthy (get_opt o "customerName") = true) rows.
Proof.
  intros d.
  destruct (transformDashboard d) as [vm|e] eqn:Hvm; [|discriminate Hvm].
  destruct (view_model_has_no_holes d vm (or_introl Hvm))
    as (Hs & _ & points & rows & _ & Hr & _ & HF).
  exists vm, rows. split; [reflexivity|]. split.
  - apply Hs. repeat constructor.
  - split; [exact Hr|]. eapply Forall_impl; [exact HF|]. by intros o (Hn & _).
Defined.

Lemma points_agree (items pa pb : list value) :
  mapM analyticsPoint items = Ok pa → mapM dashboardPoint items = Ok pb →
  Forall2 (λ a b, ∀ k, k ∈ ["date"; "events"; "cost"; "revenue"] →
                       get_opt b k = get_opt a k) pa pb.
Proof.
  revert pa pb. induction items as [|i rest IH]; intros pa pb Ha Hb; cbn in *.
  - injection Ha as <-. injection Hb as <-. constructor.
  - destruct (analyticsPoint i) as [a|e] eqn:Hia; [|discriminate Ha].
    destruct (dashboardPoint i) as [b|e] eqn:Hib; [|discriminate Hb].
    cbn in *.
    destruct (mapM analyticsPoint rest) as [as_|e]; [|discriminate Ha].
    destruct (mapM dashboardPoint rest) as [bs|e]; [|discriminate Hb].
    cbn in *. injection Ha as <-. injection Hb as <-.
    constructor; [|by apply IH].
    intros k Hk. destruct i; try discriminate Hia;
      injection Hia as <-; injection Hib as <-;
      repeat (apply elem_of_cons in Hk as [->|Hk]; [reflexivity|]);
      by apply elem_of_nil in Hk.
Qed.

(** X26: the two pages normalize alike. On the same payload the Dashboard
    view model has the same summary, vendor, model and API-type mappings and
    top customers as the Analytics view model, and its points have the same
    date, events, cost and revenue, in the same order. *)
Theorem dashboard_view_is_part_of_analytics_view :
  ∀ (d a b : value),
    transformAnalytics d = Ok a → transformDashboard d = Ok b →
    (∀ k, k ∈ ["summary"; "usageByVendor"; "usageByModel"; "usageByApiType";
               "topCustomers"] →
          get_opt b k = get_opt a k)
    ∧ ∃ pa pb,
        get_opt a "timeSeriesData" = VArr pa
        ∧ get_opt b "timeSeriesData" = VArr pb
        ∧ Forall2 (λ x y, ∀ k, k ∈ ["date"; "events"; "cost"; "revenue"] →
                               get_opt y k = get_opt x k) pa pb.
Proof.
  intros d a b Ha Hb. pose proof (ok_not_nullish d a (or_intror Ha)) as Hd.
  rewrite transformAnalytics_unfold in Ha by done.
  rewrite transformDashboard_unfold in Hb by done.
  destruct (array_map _ topCustomer) as [tc|e]; cycle 1.
  { destruct (array_map _ dashboardPoint); discriminate Hb. }
  destruct (or (get_opt d "timeSeriesData") (VArr [])) as [| | | | |items|];
    try discriminate Ha.
  cbn [array_map] in Ha, Hb.
  destruct (mapM analyticsPoint items) as [pa|e] eqn:Hpa; [|discriminate Ha].
  destruct (mapM dashboardPoint items) as [pb|e] eqn:Hpb; [|discriminate Hb].
  injection Ha as <-. injection Hb as <-. split.
  - intros k Hk.
    repeat (apply elem_of_cons in Hk as [->|Hk]; [reflexivity|]).
    by apply elem_of_nil in Hk.
  - exists pa, pb. split; [reflexivity|]. split; [reflexivity|].
    by apply (points_agree items).
Qed.

Lemma dashboard_view_is_part_of_analytics_view_witness :
  ∃ a b,
    transformAnalytics (Populated.wire Populated.sample) = Ok a
    ∧ transformDashboard (Populated.wire Populated.sample) = Ok b
    ∧ get_opt b "summary" = get_opt a "summary"
    ∧ get_opt b "topCustomers" = get_opt a "topCustomers".
Proof.
  destruct (transformAnalytics (Populated.wire Populated.sample)) as [a|e] eqn:Ha;
    [|discriminate Ha].
  destruct (transformDashboard (Populated.wire Populated.sample)) as [b|e] eqn:Hb;
    [|discriminate Hb].
  exists a, b. split; [reflexivity|]. split; [reflexivity|].
  destruct (dashboard_view_is_part_of_analytics_view _ a b Ha Hb) as [H _].
  split; apply H; repeat constructor.
Defined.

End NormalizerShape.

(* ================================================================== *)
(** * More on the category shares *)

Section Shares.
Import Dashboard.
Local Open Scope Qc_scope.








End Shares.

